(** * Nexus decision pipeline: a shallow embedding of the backend services

    The development follows [nexus/backend/app/services]: [risk.py],
    [session.py], [behavior.py], [regime.py], [regime_multi.py] and
    [decision.py], one module per Python file.

    Conventions of the embedding.
    - A Python [float] is an exact rational [Q]: rounding, infinities and
      NaN are not represented, comparisons are the exact ones, and numeric
      results are compared with [==].
    - A Python [int] is a [Z]; a [str] is a [string]; a [list] is a [list].
    - A naive UTC [datetime] is the number of microseconds since
      1970-01-01T00:00:00, a [date] the number of days since 1970-01-01.
      [datetime.utcnow()] is an explicit argument [now].
    - The database session holding the [daily_stats] table is a finite map
      from [(user_id, day)] to the row; functions that commit return the new
      table.
    - [np.log] and the square root behind [np.std] are arguments [ln] and
      [sqrt] of the classifier; rational approximations of both are given
      for evaluation.
    - A raised exception is [None], or a value of [Exception] where the
      kind of the exception is stated. *)

From Stdlib Require Import ZArith QArith Qround Qminmax Qabs String Ascii List Lia Lqa.
From Stdlib Require Import PrimFloat.
From stdpp Require Import gmap strings pretty.
Import ListNotations.

Open Scope Q_scope.

(** ** Python primitives *)

Module Py.

(** [a < b], [a >= b] and [a > b] on floats. *)
Definition ltb (a b : Q) : bool := negb (Qle_bool b a).
Definition geb (a b : Q) : bool := Qle_bool b a.
Definition gtb (a b : Q) : bool := negb (Qle_bool a b).

(** [np.clip(x, lo, hi)]. *)
Definition clip (x lo hi : Q) : Q := Qmin (Qmax x lo) hi.

(** [str.lower()] for ASCII strings: the letters A-Z are lowered. On a
    string with other characters Python also lowers the non-ASCII letters
    (U+212A becomes k); this function leaves every byte above 127 as it is,
    so it agrees with [str.lower()] on the strings of [is_ascii] only, and
    the statements that depend on the lowered name assume such a name. *)
Definition lower_ascii (c : ascii) : ascii :=
  let n := nat_of_ascii c in
  if (65 <=? n)%nat && (n <=? 90)%nat then ascii_of_nat (n + 32) else c.

Fixpoint lower (s : string) : string :=
  match s with
  | EmptyString => EmptyString
  | String c s' => String (lower_ascii c) (lower s')
  end.

(** The strings [str.lower()] is modelled for: every byte below 128. *)
Definition is_ascii (s : string) : bool :=
  forallb (fun c => (nat_of_ascii c <? 128)%nat) (list_ascii_of_string s).

(** [str(n)] for an int. *)
Definition str_int (n : Z) : string := pretty n.

(** Decimal digits of [n], left-padded with zeros to [width] characters. *)
Definition zero_pad (width : nat) (n : Z) : string :=
  let s := pretty (Z.abs n) in
  String.concat "" (repeat "0"%string (width - String.length s)) +:+ s.

(** Nearest integer, ties to even. *)
Definition round_half_even (q : Q) : Z :=
  let f := Qfloor q in
  let r := q - inject_Z f in
  if ltb r (1 # 2) then f
  else if ltb (1 # 2) r then (f + 1)%Z
  else if Z.even f then f else (f + 1)%Z.

(** [format(q, ".2f")]. *)
Definition fmt_2f (q : Q) : string :=
  let n := round_half_even (Qabs q * 100) in
  (if ltb q 0 then "-" else "")%string
    +:+ pretty (n / 100)%Z +:+ "." +:+ zero_pad 2 (n mod 100)%Z.

(** Days since 1970-01-01 to (year, month, day) in the proleptic Gregorian
    calendar. *)
Definition civil_from_days (days : Z) : Z * Z * Z :=
  let z := (days + 719468)%Z in
  let era := (z / 146097)%Z in
  let doe := (z - era * 146097)%Z in
  let yoe := ((doe - doe / 1460 + doe / 36524 - doe / 146096) / 365)%Z in
  let doy := (doe - (365 * yoe + yoe / 4 - yoe / 100))%Z in
  let mp := ((5 * doy + 2) / 153)%Z in
  let d := (doy - (153 * mp + 2) / 5 + 1)%Z in
  let m := (if mp <? 10 then mp + 3 else mp - 9)%Z in
  let y := (yoe + era * 400)%Z in
  ((if m <=? 2 then y + 1 else y)%Z, m, d).

Definition datetime := Z.
Definition date := Z.

Definition us_per_day : Z := 86400000000.

(** [now.date()]. *)
Definition date_of (now : datetime) : date := (now / us_per_day)%Z.

(** [timedelta(minutes=m)] in microseconds. *)
Definition timedelta_minutes (m : Z) : Z := (m * 60000000)%Z.

(** [datetime.isoformat()]: the fraction is printed only when it is not 0. *)
Definition isoformat (t : datetime) : string :=
  let '(y, m, d) := civil_from_days (date_of t) in
  let us := (t mod us_per_day)%Z in
  let secs := (us / 1000000)%Z in
  let frac := (us mod 1000000)%Z in
  zero_pad 4 y +:+ "-" +:+ zero_pad 2 m +:+ "-" +:+ zero_pad 2 d +:+ "T"
    +:+ zero_pad 2 (secs / 3600)%Z +:+ ":" +:+ zero_pad 2 (secs / 60 mod 60)%Z
    +:+ ":" +:+ zero_pad 2 (secs mod 60)%Z
    +:+ (if (frac =? 0)%Z then "" else "." +:+ zero_pad 6 frac)%string.

End Py.

(** ** config.py *)

(** Modelled from the spec: the fields of [settings] that the services read
    ([settings.max_risk_per_trade_pct] and the four others) are not declared
    in [config.py]; the spec lists them as the configured thresholds. They
    are the fields of this record, and every service takes the record as an
    argument. *)
Record Settings := {
  max_risk_per_trade_pct : Q;
  max_trades_per_day : Z;
  cooldown_minutes_after_two_losses : Z;
  high_vol_percentile_threshold : Q;
  trend_slope_threshold : Q
}.

(** Modelled from the spec: the example values the spec gives for the slope
    threshold (0.00025), the percentile (0.80) and the risk cap (1.0%); the
    spec gives no figure for the daily cap and the cooldown, 5 trades and 30
    minutes are used here. *)
Definition example_settings : Settings := {|
  max_risk_per_trade_pct := 1.0;
  max_trades_per_day := 5;
  cooldown_minutes_after_two_losses := 30;
  high_vol_percentile_threshold := 0.80;
  trend_slope_threshold := 0.00025
|}.

(** ** services/risk.py *)

Module RiskService.

Record RiskResult := {
  final_risk_pct : Q;
  position_size_usd : Q;
  reasons : list string
}.

Section WithSettings.
Variable settings : Settings.

(** The risk percentage after the two caps of [compute]. *)
Definition capped_risk_pct (intended_risk_pct : Q) (volatility_state : string) : Q :=
  let risk_pct := Qmin intended_risk_pct (max_risk_per_trade_pct settings) in
  if (volatility_state =? "high")%string then Qmin risk_pct 0.5 else risk_pct.

(** [stop_distance_pct = max(stop_distance_pct, 0.05)]. *)
Definition floored_stop (stop_distance_pct : Q) : Q := Qmax stop_distance_pct 0.05.

Definition compute (account_equity intended_risk_pct stop_distance_pct : Q)
    (volatility_state : string) : RiskResult :=
  let reasons := [] in
  let risk_pct := Qmin intended_risk_pct (max_risk_per_trade_pct settings) in
  let reasons :=
    if Py.gtb intended_risk_pct (max_risk_per_trade_pct settings)
    then reasons ++ ["Risk capped to " +:+ Py.fmt_2f (max_risk_per_trade_pct settings)
                       +:+ "% (beginner-safe limit)."]
    else reasons in
  let '(risk_pct, reasons) :=
    if (volatility_state =? "high")%string
    then (Qmin risk_pct 0.5, reasons ++ ["High volatility detected → risk reduced to 0.50%."])
    else (risk_pct, reasons) in
  let stop_distance_pct := Qmax stop_distance_pct 0.05 in
  let position_size_usd :=
    account_equity * (risk_pct / 100) / (stop_distance_pct / 100) in
  {| final_risk_pct := risk_pct;
     position_size_usd := position_size_usd;
     reasons := reasons |}.

End WithSettings.
End RiskService.

(** ** services/session.py *)

Module SessionService.

Record Session := {
  name : string;
  liquidity : string;
  risk_multiplier : Q;
  note : string
}.

Definition _asia : Session := {|
  name := "ASIA"; liquidity := "low"; risk_multiplier := 0.7;
  note := "Lower volatility, prone to fake moves." |}.

Definition _eu : Session := {|
  name := "EU"; liquidity := "medium"; risk_multiplier := 0.9;
  note := "Trend formation and structure building." |}.

Definition _us : Session := {|
  name := "US"; liquidity := "high"; risk_multiplier := 1.0;
  note := "Highest liquidity and strongest moves." |}.

Definition _weekend : Session := {|
  name := "WEEKEND"; liquidity := "very low"; risk_multiplier := 0.5;
  note := "Avoid trading unless exceptional setup." |}.

(** [detect], on the UTC hour of the clock reading. *)
Definition detect_hour (hour : Z) : Session :=
  if ((0 <=? hour) && (hour <? 7))%Z then _asia
  else if ((7 <=? hour) && (hour <? 13))%Z then _eu
  else if ((13 <=? hour) && (hour <? 21))%Z then _us
  else _weekend.

Definition hour_of (now : Py.datetime) : Z :=
  ((now mod Py.us_per_day) / 3600000000)%Z.

Definition detect (now : Py.datetime) : Session := detect_hour (hour_of now).

End SessionService.

(** ** models.py *)

Module Models.

(** A row of [daily_stats]; the primary key [id] (a fresh UUID) is left out,
    rows are identified by [(user_id, day)]. *)
Record DailyStat := {
  user_id : string;
  day : Py.date;
  trades_count : Z;
  wins : Z;
  losses : Z;
  realized_pnl : Q;
  consecutive_losses : Z;
  cooldown_until : option Py.datetime
}.

(** [DailyStat(user_id=user_id, day=day)]: the column defaults. *)
Definition new_daily (user_id : string) (day : Py.date) : DailyStat := {|
  user_id := user_id; day := day;
  trades_count := 0; wins := 0; losses := 0;
  realized_pnl := 0.0; consecutive_losses := 0;
  cooldown_until := None
|}.

End Models.

(** The [daily_stats] table behind the SQLAlchemy session. *)
Abbreviation DB := (gmap (string * Py.date) Models.DailyStat).

(** ** services/behavior.py *)

Module BehaviorService.

Record BehaviorResult := {
  allowed : bool;
  reasons : list string;
  suggested_actions : list string;
  cooldown_until : option Py.datetime
}.

Definition get_or_create_daily (db : DB) (user_id : string) (day : Py.date)
    : DB * Models.DailyStat :=
  match db !! (user_id, day) with
  | Some row => (db, row)
  | None =>
      let ds := Models.new_daily user_id day in
      (<[(user_id, day) := ds]> db, ds)
  end.

Section WithSettings.
Variable settings : Settings.

(** The part of [check] after the cooldown test: the daily cap. *)
Definition check_daily_cap (ds : Models.DailyStat) : BehaviorResult :=
  if (max_trades_per_day settings <=? Models.trades_count ds)%Z then
    {| allowed := false;
       reasons := ["Max trades/day reached (" +:+ Py.str_int (Models.trades_count ds)
                     +:+ "/" +:+ Py.str_int (max_trades_per_day settings) +:+ ")."];
       suggested_actions := ["Stop trading for today. Review performance."];
       cooldown_until := None |}
  else
    {| allowed := true; reasons := []; suggested_actions := [];
       cooldown_until := None |}.

Definition check (db : DB) (user_id : string) (now : Py.datetime)
    : DB * BehaviorResult :=
  let today := Py.date_of now in
  let '(db, ds) := get_or_create_daily db user_id today in
  match Models.cooldown_until ds with
  | Some until =>
      if (now <? until)%Z then
        (db, {| allowed := false;
                reasons := ["Cooldown active until " +:+ Py.isoformat until +:+ "Z."];
                suggested_actions := ["Wait out the cooldown. Review last two trades."];
                cooldown_until := Some until |})
      else (db, check_daily_cap ds)
  | None => (db, check_daily_cap ds)
  end.

(** The row that [update_on_trade_close] writes back. *)
Definition closed_row (ds : Models.DailyStat) (pnl : Q) (now : Py.datetime)
    : Models.DailyStat :=
  let trades_count := (Models.trades_count ds + 1)%Z in
  let realized_pnl := Models.realized_pnl ds + pnl in
  let '(wins, losses, consecutive_losses) :=
    if Py.gtb pnl 0
    then ((Models.wins ds + 1)%Z, Models.losses ds, 0%Z)
    else (Models.wins ds, (Models.losses ds + 1)%Z,
          (Models.consecutive_losses ds + 1)%Z) in
  let cooldown_until :=
    if (2 <=? consecutive_losses)%Z
    then Some (now + Py.timedelta_minutes (cooldown_minutes_after_two_losses settings))%Z
    else Models.cooldown_until ds in
  {| Models.user_id := Models.user_id ds; Models.day := Models.day ds;
     Models.trades_count := trades_count; Models.wins := wins;
     Models.losses := losses; Models.realized_pnl := realized_pnl;
     Models.consecutive_losses := consecutive_losses;
     Models.cooldown_until := cooldown_until |}.

Definition update_on_trade_close (db : DB) (user_id : string) (pnl : Q)
    (now : Py.datetime) : DB :=
  let today := Py.date_of now in
  let '(db, ds) := get_or_create_daily db user_id today in
  <[(user_id, today) := closed_row ds pnl now]> db.

End WithSettings.
End BehaviorService.

(** ** numpy and pandas operations used by the classifier *)

Module Np.

(** [a.sum()] *)
Definition sum (a : list Q) : Q := fold_right Qplus 0 a.

Definition len (a : list Q) : Q := inject_Z (Z.of_nat (length a)).

(** [a.mean()]; the mean of an empty array, NaN in numpy, is [0 / 0 == 0]
    here. *)
Definition mean (a : list Q) : Q := sum a / len a.

(** Sum of squared deviations from the mean. *)
Definition sq_dev (a : list Q) : Q :=
  sum (map (fun v => (v - mean a) * (v - mean a)) a).

(** [a[-n:]]; [a[-0:]] is the whole array. *)
Definition last_n {A} (n : nat) (a : list A) : list A :=
  match n with
  | O => a
  | _ => skipn (length a - n) a
  end.

(** [np.arange(n)] as floats. *)
Definition arange (n : nat) : list Q :=
  map (fun i => inject_Z (Z.of_nat i)) (seq 0 n).

(** [np.diff(a)] *)
Fixpoint diff (a : list Q) : list Q :=
  match a with
  | x :: (y :: _) as rest => (y - x) :: diff rest
  | _ => []
  end.

(** [a * b] elementwise on arrays of one length. *)
Fixpoint mul (a b : list Q) : list Q :=
  match a, b with
  | x :: a', y :: b' => x * y :: mul a' b'
  | _, _ => []
  end.

(** Insertion into a sorted array, and [np.sort]. *)
Fixpoint insert_sorted (v : Q) (a : list Q) : list Q :=
  match a with
  | [] => [v]
  | w :: a' => if Qle_bool v w then v :: a else w :: insert_sorted v a'
  end.

Definition sort (a : list Q) : list Q := fold_right insert_sorted [] a.

(** [np.quantile(a, q)] with the default linear interpolation: raises
    [ValueError] when [q] is outside [0, 1]. *)
Definition quantile (a : list Q) (q : Q) : option Q :=
  if Qle_bool 0 q && Qle_bool q 1 then
    let s := sort a in
    let h := q * (len a - 1) in
    let lo := Qfloor h in
    let hi := Z.min (lo + 1) (Z.of_nat (length a) - 1) in
    let g := h - inject_Z lo in
    let a_lo := nth (Z.to_nat lo) s 0 in
    let a_hi := nth (Z.to_nat hi) s 0 in
    Some (a_lo + g * (a_hi - a_lo))
  else None.

Section WithSqrt.
Variable sqrt : Q -> Q.

(** [np.std(a)] (population, ddof = 0). *)
Definition std (a : list Q) : Q := sqrt (sq_dev a / len a).

(** The sample standard deviation (ddof = 1) pandas computes per window. *)
Definition sample_std (a : list Q) : Q := sqrt (sq_dev a / (len a - 1)).

(** [pd.Series(a).rolling(w).std().dropna().values]: one value per full
    window of [w] consecutive samples. *)
Definition rolling_std (w : nat) (a : list Q) : list Q :=
  if (w <=? length a)%nat
  then map (fun i => sample_std (firstn w (skipn i a))) (seq 0 (length a - w + 1))
  else [].

End WithSqrt.

(** A rational square root: the floor of the root at 12 decimal places,
    0 on negative arguments. *)
Definition sqrt_approx (q : Q) : Q :=
  Z.sqrt (Qnum q * 10 ^ 24 / Z.pos (Qden q)) # 10 ^ 12.

(** A rational natural logarithm for positive arguments: the argument is
    scaled by a power of two into (1/2, 2) and the series
    [2 (t + t^3/3 + t^5/5 + ...)] with [t = (m - 1) / (m + 1)] is summed to
    [t^25]; 0 on arguments that are not positive. *)
Definition ln2_approx : Q := 6931471805599453 # 10000000000000000.

Fixpoint atanh_series (t t2 : Q) (k : nat) (n : Z) : Q :=
  match k with
  | O => 0
  | S k' => Qred (t / inject_Z n + atanh_series (Qred (t * t2)) t2 k' (n + 2))
  end.

Definition ln_approx (q : Q) : Q :=
  if Qle_bool q 0 then 0
  else
    let e := (Z.log2 (Qnum q) - Z.log2 (Z.pos (Qden q)))%Z in
    let m := Qred (q / Qpower 2 e) in
    let t := Qred ((m - 1) / (m + 1)) in
    Qred (2 * atanh_series t (Qred (t * t)) 13 1 + inject_Z e * ln2_approx).

End Np.

(** ** services/regime.py *)

Module RegimeService.

(** A row of the candle frame, columns [ts, open, high, low, close, volume]. *)
Record Candle := {
  ts : Z;
  open : Q;
  high : Q;
  low : Q;
  close : Q;
  volume : Q
}.

Record RegimeResult := {
  regime : string;
  volatility_state : string;
  slope : Q;
  vol : Q
}.

Section Classifier.
Variables ln sqrt : Q -> Q.
Variable settings : Settings.

(** The least-squares slope of [y] against [x = 0, 1, ..]. *)
Definition ols_slope (x y : list Q) : Q :=
  let x_mean := Np.mean x in
  let y_mean := Np.mean y in
  Np.sum (Np.mul (map (fun xi => xi - x_mean) x) (map (fun yi => yi - y_mean) y))
    / (Np.sum (map (fun xi => (xi - x_mean) ^ 2) x) + 1e-9).

(** The volatility state from the rolling standard deviations of [rets]. *)
Definition vol_state (rets : list Q) (vol : Q) : option string :=
  if (60 <? length rets)%nat then
    let vols := Np.rolling_std sqrt 30 rets in
    if (10 <? length vols)%nat then
      thr ← Np.quantile vols (high_vol_percentile_threshold settings);
      Some (if Py.geb vol thr then "high" else "low")%string
    else Some "low"%string
  else Some "low"%string.

Definition classify (candles : list Candle) : option RegimeResult :=
  let close := map close candles in
  let logp := map (fun c => ln (c + 1e-9)) close in
  let window := Nat.min 120 (length logp) in
  let y := Np.last_n window logp in
  let x := Np.arange window in
  let slope := ols_slope x y in
  let rets := Np.diff logp in
  let vol :=
    if (window <=? length rets)%nat then Np.std sqrt (Np.last_n window rets)
    else if (0 <? length rets)%nat then Np.std sqrt rets
    else 0.0 in
  volatility_state ← vol_state rets vol;
  let regime :=
    (if Py.geb (Qabs slope) (trend_slope_threshold settings)
     then "trend" else "range")%string in
  Some {| regime := regime; volatility_state := volatility_state;
          slope := slope; vol := vol |}.

End Classifier.
End RegimeService.

(** ** services/regime_multi.py *)

Module MultiTimeframeRegimeService.

(** [per_tf] is a dict in insertion order: a list of (timeframe, result)
    pairs; [combine] reads only its values. *)
Record MultiTFRegime := {
  final_regime : string;
  final_volatility : string;
  confidence : Q;
  per_tf : list (string * RegimeService.RegimeResult)
}.

(** [sum(1 for x in xs if x == v)] *)
Definition votes (v : string) (xs : list string) : Z :=
  Z.of_nat (length (List.filter (fun x => (x =? v)%string) xs)).

(** [a / b] on ints, a float. *)
Definition true_div (a b : Z) : Q := inject_Z a / inject_Z b.

Definition combine (per_tf : list (string * RegimeService.RegimeResult))
    : MultiTFRegime :=
  let regimes := map (fun kv => RegimeService.regime (snd kv)) per_tf in
  let vols := map (fun kv => RegimeService.volatility_state (snd kv)) per_tf in
  let trend_votes := votes "trend" regimes in
  let range_votes := (Z.of_nat (length regimes) - trend_votes)%Z in
  let final_regime :=
    (if (range_votes <? trend_votes)%Z then "trend" else "range")%string in
  let high_vol_votes := votes "high" vols in
  let final_vol := (if (2 <=? high_vol_votes)%Z then "high" else "low")%string in
  let agree_regime :=
    true_div (Z.max trend_votes range_votes) (Z.max 1 (Z.of_nat (length regimes))) in
  let agree_vol :=
    true_div (if (final_vol =? "high")%string then high_vol_votes
              else (Z.of_nat (length vols) - high_vol_votes)%Z)
             (Z.max 1 (Z.of_nat (length vols))) in
  let slopes := map (fun kv => Qabs (RegimeService.slope (snd kv))) per_tf in
  let slope_bonus := Py.clip (Np.mean slopes / 0.002) 0.0 1.0 in
  let confidence :=
    Py.clip (0.55 * agree_regime + 0.25 * agree_vol + 0.20 * slope_bonus) 0.0 1.0 in
  {| final_regime := final_regime;
     final_volatility := final_vol;
     confidence := confidence;
     per_tf := per_tf |}.

End MultiTimeframeRegimeService.

(** ** services/decision.py *)

Module DecisionService.

(** The exceptions [check_trade] ends with. *)
Inductive Exception :=
  | ValueError (msg : string)
  | TypeError (msg : string).

(** The ten fields of the result class. *)
Record DecisionResult := {
  res_decision : string;
  res_quality_score : Q;
  res_risk_pct : Q;
  res_position_size_usd : Q;
  res_reasons : list string;
  res_suggested_actions : list string;
  res_market_regime : string;
  res_volatility_state : string;
  res_session_name : option string;
  res_session_confidence : option Q
}.

(** The keyword arguments of a [DecisionResult(...)] call in [check_trade]:
    each of the four calls passes these eight and neither [session_name]
    nor [session_confidence]. The arguments are evaluated before the call
    is made. *)
Record DecisionCall := {
  decision : string;
  quality_score : Q;
  risk_pct : Q;
  position_size_usd : Q;
  reasons : list string;
  suggested_actions : list string;
  market_regime : string;
  volatility_state : string
}.

(** The call [DecisionResult(...)] with the arguments [call]. The class is a
    pydantic [BaseModel] under
    [@dataclass]: pydantic takes the [= None] defaults of [session_name] and
    [session_confidence] out of the class namespace, so the [__init__] the
    decorator generates has all ten fields as required parameters, and a
    call with eight of them raises [TypeError] before any field is set. *)
Definition DecisionResult_call (call : DecisionCall) : Exception + DecisionResult :=
  inl (TypeError
         "DecisionResult.__init__() missing 2 required positional arguments: 'session_name' and 'session_confidence'").

Definition _strategy_fit_score (regime volatility strategy : string)
    : Q * list string :=
  let reasons := [] in
  let score := 1.0 in
  let '(score, reasons) :=
    if (Py.lower strategy =? "breakout")%string && (regime =? "RANGE")%string
    then (score - 0.35,
          reasons ++ ["Breakout strategy underperforms in range markets."])
    else (score, reasons) in
  let '(score, reasons) :=
    if (volatility =? "high")%string
    then (score - 0.15, reasons ++ ["High volatility increases false signals."])
    else (score, reasons) in
  let '(score, reasons) :=
    if (volatility =? "low")%string
    then (score - 0.10,
          reasons ++ ["Low volatility reduces momentum follow-through."])
    else (score, reasons) in
  (Qmax score 0.0, reasons).

Section Pipeline.
Variables ln sqrt : Q -> Q.
Variable settings : Settings.

(** The dict comprehension [{tf: classify(df) for tf, df in ...}]; an
    exception raised by one classification ends it. *)
Fixpoint classify_all (candles_by_tf : list (string * list RegimeService.Candle))
    : option (list (string * RegimeService.RegimeResult)) :=
  match candles_by_tf with
  | [] => Some []
  | (tf, df) :: rest =>
      r ← RegimeService.classify ln sqrt settings df;
      rs ← classify_all rest;
      Some ((tf, r) :: rs)
  end.

(** [f"{multi.final_regime} (conf {multi.confidence:.2f})"] *)
Definition regime_label (multi : MultiTimeframeRegimeService.MultiTFRegime) : string :=
  MultiTimeframeRegimeService.final_regime multi +:+ " (conf "
    +:+ Py.fmt_2f (MultiTimeframeRegimeService.confidence multi) +:+ ")".

(** The body of [check_trade] from the strategy fit scoring on, reached when
    the behavior check allows the trade, up to the [DecisionResult(...)]
    call it arrives at: the value is the arguments of that call.
    [final_risk_pct] is [risk.final_risk_pct] after the session
    multiplier. *)
Definition allowed_call (multi : MultiTimeframeRegimeService.MultiTFRegime)
    (risk : RiskService.RiskResult) (final_risk_pct : Q) (strategy : string)
    : DecisionCall :=
  let final_regime := MultiTimeframeRegimeService.final_regime multi in
  let final_volatility := MultiTimeframeRegimeService.final_volatility multi in
  let confidence := MultiTimeframeRegimeService.confidence multi in
  let '(quality_score, fit_reasons) :=
    _strategy_fit_score final_regime final_volatility strategy in
  let reasons := fit_reasons ++ RiskService.reasons risk in
  let suggested := [] in
  let low_conf := Py.ltb confidence 0.45 in
  let reasons :=
    if low_conf
    then reasons ++ ["Low regime confidence (" +:+ Py.fmt_2f confidence
                       +:+ ") → conditions unclear."]
    else reasons in
  if low_conf && Py.ltb quality_score 0.55 then
    {| decision := "BLOCK";
       quality_score := quality_score;
       risk_pct := final_risk_pct;
       position_size_usd := RiskService.position_size_usd risk;
       reasons := reasons;
       suggested_actions := ["Wait for clearer market structure.";
                             "Switch timeframe to 15m for confirmation."];
       market_regime := regime_label multi;
       volatility_state := final_volatility |}
  else
    let suggested :=
      if low_conf
      then suggested ++ ["Proceed only with extra confirmation; consider reducing size."]
      else suggested in
    if Py.ltb quality_score 0.35 then
      {| decision := "BLOCK";
         quality_score := quality_score;
         risk_pct := final_risk_pct;
         position_size_usd := RiskService.position_size_usd risk;
         reasons := reasons ++ ["Trade quality score too low."];
         suggested_actions := ["Wait for a clearer setup.";
                               "Consider changing strategy for the current regime."];
         market_regime := regime_label multi;
         volatility_state := final_volatility |}
    else
      let '(decision, suggested) :=
        if Py.ltb quality_score 0.55
        then ("WARN"%string,
              suggested ++ ["Lower position size or wait for confirmation."])
        else ("ALLOW"%string, suggested) in
      let suggested :=
        if (final_volatility =? "high")%string
        then suggested ++ ["Use wider stops or smaller size; expect faster swings."]
        else suggested in
      let suggested :=
        match suggested with
        | [] => ["Proceed only if your setup matches your plan and stop is respected."]
        | _ => suggested
        end in
      {| decision := decision;
         quality_score := quality_score;
         risk_pct := final_risk_pct;
         position_size_usd := RiskService.position_size_usd risk;
         reasons := reasons;
         suggested_actions := suggested;
         market_regime := regime_label multi;
         volatility_state := final_volatility |}.

(** [check_trade] up to the [DecisionResult(...)] call it arrives at. The
    clock read by [behavior.check] is [now]; [session] is the value of the
    default argument [SessionService().detect()]. The result is the table
    after the behavior check together with the arguments of the call,
    [None] when a classification raised before. *)
Definition check_trade_call (db : DB)
    (candles_by_tf : list (string * list RegimeService.Candle))
    (user_id symbol strategy : string)
    (account_equity intended_risk_pct stop_distance_pct : Q)
    (timeframe : string) (session : SessionService.Session)
    (now : Py.datetime) : DB * option DecisionCall :=
  let '(db, beh) := BehaviorService.check settings db user_id now in
  match classify_all candles_by_tf with
  | None => (db, None)
  | Some per_tf =>
      let multi := MultiTimeframeRegimeService.combine per_tf in
      let risk :=
        RiskService.compute settings account_equity intended_risk_pct
          stop_distance_pct (MultiTimeframeRegimeService.final_volatility multi) in
      let final_risk_pct :=
        RiskService.final_risk_pct risk * SessionService.risk_multiplier session in
      if negb (BehaviorService.allowed beh) then
        (db, Some {|
           decision := "BLOCK";
           quality_score := 0.0;
           risk_pct := final_risk_pct;
           position_size_usd := RiskService.position_size_usd risk;
           reasons := BehaviorService.reasons beh ++ RiskService.reasons risk;
           suggested_actions :=
             BehaviorService.suggested_actions beh ++ ["Switch to paper review mode."];
           market_regime := regime_label multi;
           volatility_state := MultiTimeframeRegimeService.final_volatility multi |})
      else (db, Some (allowed_call multi risk final_risk_pct strategy))
  end.

(** [check_trade]: the table after the behavior check, and the result of
    the call: the [ValueError] of [np.quantile] when a classification
    raised, else what [DecisionResult(...)] gives for the arguments. *)
Definition check_trade (db : DB)
    (candles_by_tf : list (string * list RegimeService.Candle))
    (user_id symbol strategy : string)
    (account_equity intended_risk_pct stop_distance_pct : Q)
    (timeframe : string) (session : SessionService.Session)
    (now : Py.datetime) : DB * (Exception + DecisionResult) :=
  let '(db, call) :=
    check_trade_call db candles_by_tf user_id symbol strategy account_equity
      intended_risk_pct stop_distance_pct timeframe session now in
  match call with
  | None => (db, inl (ValueError "Quantiles must be in the range [0, 1]"))
  | Some kw => (db, DecisionResult_call kw)
  end.

End Pipeline.
End DecisionService.

(** ** Histories of the daily table, and notions used in the statements *)

Module History.

(** One call that touches the table: a behavior check or a trade close. *)
Inductive step (settings : Settings) : DB -> DB -> Prop :=
  | step_check db user_id now :
      step settings db (fst (BehaviorService.check settings db user_id now))
  | step_close db user_id pnl now :
      step settings db (BehaviorService.update_on_trade_close settings db user_id pnl now).

(** The tables reached from the empty one. *)
Inductive reachable (settings : Settings) : DB -> Prop :=
  | reachable_empty : reachable settings ∅
  | reachable_step db db' :
      reachable settings db -> step settings db db' -> reachable settings db'.

(** [trades_count == wins + losses] *)
Definition counts_agree (ds : Models.DailyStat) : Prop :=
  Models.trades_count ds = (Models.wins ds + Models.losses ds)%Z.

(** All rows of a table satisfy [counts_agree]. *)
Definition table_counts_agree (db : DB) : Prop :=
  forall key ds, db !! key = Some ds -> counts_agree ds.

End History.

(** The number of timeframes whose regime is, and is not, ["trend"]. *)
Definition trend_count (per_tf : list (string * RegimeService.RegimeResult)) : nat :=
  length (List.filter (fun kv => (RegimeService.regime (snd kv) =? "trend")%string) per_tf).

Definition other_count (per_tf : list (string * RegimeService.RegimeResult)) : nat :=
  length (List.filter (fun kv => negb (RegimeService.regime (snd kv) =? "trend")%string) per_tf).

(** A candle whose four prices are [c]. *)
Definition flat_candle (c : Q) : RegimeService.Candle := {|
  RegimeService.ts := 0; RegimeService.open := c; RegimeService.high := c;
  RegimeService.low := c; RegimeService.close := c; RegimeService.volume := 1
|}.

(** [0 <= settings.high_vol_percentile_threshold <= 1]: the percentiles
    [np.quantile] accepts. *)
Definition percentile_ok (settings : Settings) : Prop :=
  0 <= high_vol_percentile_threshold settings <= 1.

(** The aggregate and the risk result [check_trade] works with, for the
    per-timeframe classifications [per_tf]. *)
Definition multi_of (per_tf : list (string * RegimeService.RegimeResult)) :=
  MultiTimeframeRegimeService.combine per_tf.

Definition risk_of (settings : Settings)
    (per_tf : list (string * RegimeService.RegimeResult))
    (account_equity intended_risk_pct stop_distance_pct : Q) :=
  RiskService.compute settings account_equity intended_risk_pct stop_distance_pct
    (MultiTimeframeRegimeService.final_volatility (multi_of per_tf)).

(** ** The scorer's arithmetic in binary64 *)

(** [_strategy_fit_score] once more, on IEEE 754 binary64 numbers: the score
    only, to compare the rounded arithmetic with the exact one at the
    thresholds 0.55 and 0.35 of [check_trade]. *)
Module Binary64.

(* The decimal literals are read as the nearest binary64 values, as Python
   reads them. *)
#[local] Set Warnings "-inexact-float".

Definition fmax (a b : float) : float := if PrimFloat.ltb a b then b else a.

Definition _strategy_fit_score (regime volatility strategy : string) : float :=
  let score := 1.0%float in
  let score :=
    if (Py.lower strategy =? "breakout")%string && (regime =? "RANGE")%string
    then PrimFloat.sub score 0.35%float else score in
  let score :=
    if (volatility =? "high")%string then PrimFloat.sub score 0.15%float else score in
  let score :=
    if (volatility =? "low")%string then PrimFloat.sub score 0.10%float else score in
  fmax score 0.0%float.

End Binary64.

(** ** Inputs used to instantiate the statements *)

Module Examples.

(** Three timeframes of three candles each. *)
Definition candles_by_tf : list (string * list RegimeService.Candle) :=
  [("1m"%string, map flat_candle [100; 101; 102]);
   ("5m"%string, map flat_candle [100; 100; 100]);
   ("15m"%string, map flat_candle [99; 100; 98])].

(** 200 candles closing at 100. *)
Definition flat_200 : list RegimeService.Candle := repeat (flat_candle 100) 200.

(** 2023-11-14T22:13:20 and one minute later. *)
Definition t1 : Py.datetime := 1700000000000000%Z.
Definition t2 : Py.datetime := 1700000060000000%Z.

(** A table in which user [u1] has reached the daily cap of
    [example_settings] on the day of [t1]. *)
Definition capped_db : DB :=
  <[("u1"%string, Py.date_of t1) :=
      {| Models.user_id := "u1"; Models.day := Py.date_of t1;
         Models.trades_count := 5; Models.wins := 3; Models.losses := 2;
         Models.realized_pnl := 12.5; Models.consecutive_losses := 0;
         Models.cooldown_until := None |}]> ∅.

End Examples.

(** ** main.py: the trade endpoints and the reports *)

Module Main.

(** A row of [trades] (models.py). *)
Record Trade := {
  id : string;
  user_id : string;
  symbol : string;
  strategy : string;
  mode : string;
  status : string;
  opened_at : Py.datetime;
  closed_at : option Py.datetime;
  entry_price : Q;
  exit_price : option Q;
  qty : Q;
  risk_pct : Q;
  stop_distance_pct : Q;
  pnl : option Q;
  rr : option Q;
  rule_violation : bool;
  notes : option string
}.

(** schemas.py *)
Record TradeOpenRequest := {
  open_user_id : string;
  open_symbol : string;
  open_strategy : string;
  open_entry_price : Q;
  open_qty : Q;
  open_risk_pct : Q;
  open_stop_distance_pct : Q;
  open_mode : string;
  open_notes : option string
}.

Record TradeCloseRequest := {
  close_user_id : string;
  close_trade_id : string;
  close_exit_price : Q;
  close_pnl : Q;
  close_rr : option Q;
  close_rule_violation : bool;
  close_notes : option string
}.

Record DailyReport := {
  report_day : string;
  report_trades : Z;
  report_wins : Z;
  report_losses : Z;
  report_realized_pnl : Q;
  report_consecutive_losses : Z;
  report_cooldown_until : option string
}.

Record WeeklyReport := {
  start_day : string;
  end_day : string;
  trades : Z;
  wins : Z;
  losses : Z;
  realized_pnl : Q;
  max_consecutive_losses : Z
}.

(** The two tables of the database session. *)
Record Store := {
  trades_table : gmap string Trade;
  daily_stats : DB
}.

(** [HTTPException(status_code, detail)] *)
Inductive HTTPException := HTTPError (status_code : Z) (detail : string).

(** [str(d)] for a date: YYYY-MM-DD. *)
Definition str_date (d : Py.date) : string :=
  let '(y, m, dd) := Py.civil_from_days d in
  Py.zero_pad 4 y +:+ "-" +:+ Py.zero_pad 2 m +:+ "-" +:+ Py.zero_pad 2 dd.

(** [open_trade]: [user] is the id of the authenticated user, [new_id] the
    UUID drawn for the row and [now] the clock read for [opened_at]. *)
Definition open_trade (st : Store) (req : TradeOpenRequest) (user new_id : string)
    (now : Py.datetime) : Store * (HTTPException + Trade) :=
  if negb (open_mode req =? "PAPER")%string then
    (st, inl (HTTPError 400 "Only PAPER mode is supported in MVP."))
  else
    let trade := {|
      id := new_id;
      user_id := user;
      symbol := open_symbol req;
      strategy := open_strategy req;
      mode := open_mode req;
      status := "OPEN";
      opened_at := now;
      closed_at := None;
      entry_price := open_entry_price req;
      exit_price := None;
      qty := open_qty req;
      risk_pct := open_risk_pct req;
      stop_distance_pct := open_stop_distance_pct req;
      pnl := None;
      rr := None;
      rule_violation := false;
      notes := open_notes req |} in
    ({| trades_table := <[new_id := trade]> (trades_table st);
        daily_stats := daily_stats st |}, inr trade).

(** [select(Trade).where(Trade.id == trade_id, Trade.user_id == user)] *)
Definition find_trade (st : Store) (trade_id user : string) : option Trade :=
  match trades_table st !! trade_id with
  | Some trade => if (user_id trade =? user)%string then Some trade else None
  | None => None
  end.

(** The notes of a trade after a close request: [req.notes], when it is a
    non-empty string, is appended on a new line. *)
Definition closed_notes (old req_notes : option string) : option string :=
  match req_notes with
  | Some (String c s) =>
      Some (default ""%string old +:+ String (ascii_of_nat 10) (String c s))
  | _ => old
  end.

Section WithSettings.
Variable settings : Settings.

(** [close_trade]: [now] is the clock read for [closed_at], [now'] the one
    read by [update_on_trade_close]. *)
Definition close_trade (st : Store) (req : TradeCloseRequest) (user : string)
    (now now' : Py.datetime) : Store * (HTTPException + Trade) :=
  match find_trade st (close_trade_id req) user with
  | None => (st, inl (HTTPError 404 "Trade not found."))
  | Some trade =>
      if negb (status trade =? "OPEN")%string then
        (st, inl (HTTPError 400 "Trade is not OPEN."))
      else
        let trade := {|
          id := id trade;
          user_id := user_id trade;
          symbol := symbol trade;
          strategy := strategy trade;
          mode := mode trade;
          status := "CLOSED";
          opened_at := opened_at trade;
          closed_at := Some now;
          entry_price := entry_price trade;
          exit_price := Some (close_exit_price req);
          qty := qty trade;
          risk_pct := risk_pct trade;
          stop_distance_pct := stop_distance_pct trade;
          pnl := Some (close_pnl req);
          rr := close_rr req;
          rule_violation := close_rule_violation req;
          notes := closed_notes (notes trade) (close_notes req) |} in
        ({| trades_table := <[close_trade_id req := trade]> (trades_table st);
            daily_stats :=
              BehaviorService.update_on_trade_close settings (daily_stats st)
                user (close_pnl req) now' |},
         inr trade)
  end.

End WithSettings.

(** [daily_report] *)
Definition daily_report (st : Store) (user : string) (now : Py.datetime)
    : Store * DailyReport :=
  let today := Py.date_of now in
  let '(db, ds) := BehaviorService.get_or_create_daily (daily_stats st) user today in
  ({| trades_table := trades_table st; daily_stats := db |},
   {| report_day := str_date (Models.day ds);
      report_trades := Models.trades_count ds;
      report_wins := Models.wins ds;
      report_losses := Models.losses ds;
      report_realized_pnl := Models.realized_pnl ds;
      report_consecutive_losses := Models.consecutive_losses ds;
      report_cooldown_until :=
        match Models.cooldown_until ds with
        | Some until => Some (Py.isoformat until +:+ "Z")
        | None => None
        end |}).

(** The rows of [user] for the seven days ending at [end_day], by day. *)
Definition week_rows (db : DB) (user : string) (end_day : Py.date)
    : list Models.DailyStat :=
  omap (fun i => db !! (user, (end_day - 6 + Z.of_nat i)%Z)) (seq 0 7).

(** [sum(f(r) for r in rows)] on ints and on floats. *)
Definition sum_int (f : Models.DailyStat -> Z) (rows : list Models.DailyStat) : Z :=
  fold_left (fun acc r => (acc + f r)%Z) rows 0%Z.

Definition sum_float (f : Models.DailyStat -> Q) (rows : list Models.DailyStat) : Q :=
  fold_left (fun acc r => acc + f r) rows 0.

(** [max((f(r) for r in rows), default=0)] *)
Definition max_default_0 (f : Models.DailyStat -> Z) (rows : list Models.DailyStat) : Z :=
  match rows with
  | [] => 0%Z
  | r :: rest => fold_left (fun acc r' => Z.max acc (f r')) rest (f r)
  end.

(** [weekly_report] *)
Definition weekly_report (st : Store) (user : string) (now : Py.datetime)
    : WeeklyReport :=
  let end_day := Py.date_of now in
  let start_day := (end_day - 6)%Z in
  let rows := week_rows (daily_stats st) user end_day in
  {| start_day := str_date start_day;
     end_day := str_date end_day;
     trades := sum_int Models.trades_count rows;
     wins := sum_int Models.wins rows;
     losses := sum_int Models.losses rows;
     realized_pnl := sum_float Models.realized_pnl rows;
     max_consecutive_losses := max_default_0 Models.consecutive_losses rows |}.

(** The calls that change the store. *)
Inductive step (settings : Settings) : Store -> Store -> Prop :=
  | step_open st req user new_id now :
      trades_table st !! new_id = None ->
      step settings st (fst (open_trade st req user new_id now))
  | step_close st req user now now' :
      step settings st (fst (close_trade settings st req user now now'))
  | step_check st user now :
      step settings st
        {| trades_table := trades_table st;
           daily_stats := fst (BehaviorService.check settings (daily_stats st) user now) |}
  | step_daily_report st user now :
      step settings st (fst (daily_report st user now)).

Definition empty_store : Store := {| trades_table := ∅; daily_stats := ∅ |}.

Inductive reachable (settings : Settings) : Store -> Prop :=
  | reachable_empty : reachable settings empty_store
  | reachable_step st st' :
      reachable settings st -> step settings st st' -> reachable settings st'.

End Main.

(** ** Further notions used in the statements *)

(** The number of timeframes reporting high volatility. *)
Definition high_count (per_tf : list (string * RegimeService.RegimeResult)) : nat :=
  length (List.filter
            (fun kv => (RegimeService.volatility_state (snd kv) =? "high")%string) per_tf).





(** The key of a row agrees with its [user_id] and [day], its counters are
    not negative, the losing streak is at most the losses, and a streak of
    two or more comes with a cooldown. *)
Definition row_ok (key : string * Py.date) (ds : Models.DailyStat) : Prop :=
  Models.user_id ds = key.1 /\ Models.day ds = key.2 /\
  (0 <= Models.wins ds)%Z /\
  (0 <= Models.consecutive_losses ds <= Models.losses ds)%Z /\
  ((2 <= Models.consecutive_losses ds)%Z -> Models.cooldown_until ds <> None).

(** A stored trade sits under its own [id], is a paper trade, and is either
    open with no closing data or closed with all of it. *)
Definition trade_ok (key : string) (tr : Main.Trade) : Prop :=
  Main.id tr = key /\ Main.mode tr = "PAPER"%string /\
  (Main.status tr = "OPEN"%string /\ Main.closed_at tr = None /\
   Main.exit_price tr = None /\ Main.pnl tr = None
   \/
   Main.status tr = "CLOSED"%string /\ Main.closed_at tr <> None /\
   Main.exit_price tr <> None /\ Main.pnl tr <> None).

Module MoreExamples.

(** 23:50 on 2023-11-14, and ten minutes past the following midnight. *)
Definition late : Py.datetime := 1700005800000000%Z.
Definition after_midnight : Py.datetime := 1700007000000000%Z.

(** The table after two losing closes of [u1] at [late]. *)
Definition cooled_db : DB :=
  BehaviorService.update_on_trade_close example_settings
    (BehaviorService.update_on_trade_close example_settings ∅ "u1" (-10) late)
    "u1" (-5) late.

Definition close_request : Main.TradeCloseRequest := {|
  Main.close_user_id := "u1"; Main.close_trade_id := "t1";
  Main.close_exit_price := 101; Main.close_pnl := 12.5;
  Main.close_rr := None; Main.close_rule_violation := false;
  Main.close_notes := Some "took profit"%string |}.

Definition open_request : Main.TradeOpenRequest := {|
  Main.open_user_id := "u1"; Main.open_symbol := "BTCUSDT";
  Main.open_strategy := "breakout"; Main.open_entry_price := 100;
  Main.open_qty := 1; Main.open_risk_pct := 1; Main.open_stop_distance_pct := 1;
  Main.open_mode := "PAPER"; Main.open_notes := None |}.

(** The store after [u1] opened trade [t1]. *)
Definition open_store : Main.Store :=
  fst (Main.open_trade Main.empty_store open_request "u1" "t1" Examples.t1).

Definition loss_request : Main.TradeCloseRequest := {|
  Main.close_user_id := "u1"; Main.close_trade_id := "t2";
  Main.close_exit_price := 99; Main.close_pnl := -4;
  Main.close_rr := None; Main.close_rule_violation := false;
  Main.close_notes := None |}.

(** The stores after [u1] opened a second trade [t2], then closed [t1] with
    a profit, then closed [t2] with a loss. *)
Definition two_open_store : Main.Store :=
  fst (Main.open_trade open_store open_request "u1" "t2" Examples.t1).

Definition won_store : Main.Store :=
  fst (Main.close_trade example_settings two_open_store close_request "u1"
         Examples.t2 Examples.t2).

Definition week_store : Main.Store :=
  fst (Main.close_trade example_settings won_store loss_request "u1"
         Examples.t2 Examples.t2).

End MoreExamples.

(** * Properties *)

(** ** Comparisons *)

Lemma ltb_true a b : Py.ltb a b = true <-> a < b.
Proof.
  unfold Py.ltb. rewrite negb_true_iff, <- not_true_iff_false, Qle_bool_iff.
  split; [apply Qnot_le_lt | apply Qlt_not_le].
Qed.

Lemma ltb_false a b : Py.ltb a b = false <-> b <= a.
Proof. unfold Py.ltb. rewrite negb_false_iff. apply Qle_bool_iff. Qed.

Lemma gtb_true a b : Py.gtb a b = true <-> b < a.
Proof. apply ltb_true. Qed.

Lemma geb_true a b : Py.geb a b = true <-> b <= a.
Proof. apply Qle_bool_iff. Qed.

Lemma clip_bounds x lo hi : lo <= hi -> lo <= Py.clip x lo hi <= hi.
Proof.
  intros H. unfold Py.clip. split.
  - apply Q.min_glb; [apply Q.le_max_r | exact H].
  - apply Q.le_min_r.
Qed.

(** ** The risk sizer *)

Section Risk.
Variable settings : Settings.

Lemma compute_final_risk_pct e r s v :
  RiskService.final_risk_pct (RiskService.compute settings e r s v)
  = RiskService.capped_risk_pct settings r v.
Proof.
  unfold RiskService.compute, RiskService.capped_risk_pct.
  destruct (v =? "high")%string; reflexivity.
Qed.

Lemma compute_position_size e r s v :
  RiskService.position_size_usd (RiskService.compute settings e r s v)
  = e * (RiskService.capped_risk_pct settings r v / 100)
      / (RiskService.floored_stop s / 100).
Proof.
  unfold RiskService.compute, RiskService.capped_risk_pct, RiskService.floored_stop.
  destruct (v =? "high")%string; reflexivity.
Qed.

Lemma capped_risk_nonneg r v :
  0 <= r -> 0 <= max_risk_per_trade_pct settings ->
  0 <= RiskService.capped_risk_pct settings r v.
Proof.
  intros Hr Hm. unfold RiskService.capped_risk_pct.
  assert (0 <= Qmin r (max_risk_per_trade_pct settings)) by (apply Q.min_glb; assumption).
  destruct (v =? "high")%string; [apply Q.min_glb; [assumption | lra] | assumption].
Qed.

Lemma floored_stop_pos s : 0 < RiskService.floored_stop s.
Proof.
  unfold RiskService.floored_stop.
  apply Qlt_le_trans with 0.05; [reflexivity | apply Q.le_max_r].
Qed.

Lemma floored_stop_mono s1 s2 :
  s1 <= s2 -> RiskService.floored_stop s1 <= RiskService.floored_stop s2.
Proof. intros H. apply Q.max_le_compat_r, H. Qed.

Lemma div_antitone a d1 d2 : 0 <= a -> 0 < d1 -> d1 <= d2 -> a / d2 <= a / d1.
Proof.
  intros Ha Hd1 Hd.
  assert (Hd2 : 0 < d2) by (eapply Qlt_le_trans; eassumption).
  unfold Qdiv. rewrite (Qmult_comm a (/ d2)), (Qmult_comm a (/ d1)).
  apply Qmult_le_compat_r; [| exact Ha].
  apply Qle_shift_inv_r; [exact Hd2 |].
  apply Qmult_le_l with (z := d1); [exact Hd1 |].
  rewrite Qmult_assoc, Qmult_inv_r, Qmult_1_l, Qmult_1_r; [exact Hd |].
  intros E. rewrite E in Hd1. apply (Qlt_irrefl _ Hd1).
Qed.


(** C7: with the equity, the intended risk, the volatility state and a
    non-negative risk cap fixed, a larger stop distance never gives a larger
    position size. *)
Theorem position_size_antitone_in_stop
    (account_equity intended_risk_pct s1 s2 : Q) (volatility_state : string) :
  0 < account_equity -> 0 < intended_risk_pct ->
  0 <= max_risk_per_trade_pct settings ->
  s1 <= s2 ->
  RiskService.position_size_usd
    (RiskService.compute settings account_equity intended_risk_pct s2 volatility_state)
  <= RiskService.position_size_usd
       (RiskService.compute settings account_equity intended_risk_pct s1 volatility_state).
Proof.
  intros He Hr Hm Hs. rewrite !compute_position_size.
  apply div_antitone.
  - apply Qmult_le_0_compat; [lra |].
    apply Qmult_le_0_compat; [| discriminate].
    apply capped_risk_nonneg; [lra | exact Hm].
  - pose proof (floored_stop_pos s1). unfold Qdiv.
    apply Qmult_lt_0_compat; [assumption | reflexivity].
  - unfold Qdiv. apply Qmult_le_compat_r; [| discriminate].
    apply floored_stop_mono, Hs.
Qed.

End Risk.

Lemma position_size_antitone_example :
  0 < 10000 /\ 0 < 2.0 /\ 0 <= max_risk_per_trade_pct example_settings /\ 0.5 <= 1.0 /\
  RiskService.position_size_usd (RiskService.compute example_settings 10000 2.0 1.0 "low")
  <= RiskService.position_size_usd (RiskService.compute example_settings 10000 2.0 0.5 "low").
Proof.
  assert (H1 : 0 < 10000) by reflexivity.
  assert (H2 : 0 < 2.0) by reflexivity.
  assert (H3 : 0 <= max_risk_per_trade_pct example_settings) by discriminate.
  assert (H4 : 0.5 <= 1.0) by discriminate.
  split; [exact H1 |]. split; [exact H2 |]. split; [exact H3 |]. split; [exact H4 |].
  exact (position_size_antitone_in_stop example_settings 10000 2.0 0.5 1.0 "low" H1 H2 H3 H4).
Defined.

(** ** The strategy fit scorer *)

(** With the regime spelled ["RANGE"], the spelling the scorer tests for,
    both deductions apply. *)
Lemma fit_score_uppercase_range :
  fst (DecisionService._strategy_fit_score "RANGE" "low" "breakout") == 0.55 /\
  snd (DecisionService._strategy_fit_score "RANGE" "low" "breakout")
  = ["Breakout strategy underperforms in range markets.";
     "Low volatility reduces momentum follow-through."].
Proof. split; reflexivity. Qed.

(** C1: for the breakout strategy, the regime ["range"] (the value the
    classifier and the aggregator produce for a range market) and low
    volatility, the scorer returns 0.90 with the low-volatility reason only:
    the 0.35 deduction and its reason are missing, and the score is not
    0.55. *)
Theorem fit_score_breakout_in_range_low :
  fst (DecisionService._strategy_fit_score "range" "low" "breakout") == 0.90 /\
  snd (DecisionService._strategy_fit_score "range" "low" "breakout")
  = ["Low volatility reduces momentum follow-through."] /\
  ~ fst (DecisionService._strategy_fit_score "range" "low" "breakout") == 0.55.
Proof. split; [reflexivity | split; [reflexivity | discriminate]]. Qed.

(** For the regimes and volatility states of the pipeline the score depends
    on the volatility only. *)
Lemma fit_score_of_pipeline_values regime volatility strategy :
  regime = "trend"%string \/ regime = "range"%string ->
  volatility = "high"%string \/ volatility = "low"%string ->
  DecisionService._strategy_fit_score regime volatility strategy
  = if (volatility =? "high")%string
    then (Qmax (1.0 - 0.15) 0.0, ["High volatility increases false signals."])
    else (Qmax (1.0 - 0.10) 0.0, ["Low volatility reduces momentum follow-through."]).
Proof.
  intros Hr Hv. unfold DecisionService._strategy_fit_score.
  assert (E : (regime =? "RANGE")%string = false) by (destruct Hr; subst; reflexivity).
  rewrite E, andb_false_r.
  destruct Hv; subst; reflexivity.
Qed.

(** ** The multi-timeframe aggregator *)

Section Aggregator.
Import MultiTimeframeRegimeService.

Lemma final_regime_values per_tf :
  final_regime (combine per_tf) = "trend"%string \/
  final_regime (combine per_tf) = "range"%string.
Proof. unfold combine; simpl. destruct (_ <? _)%Z; auto. Qed.

Lemma final_volatility_values per_tf :
  final_volatility (combine per_tf) = "high"%string \/
  final_volatility (combine per_tf) = "low"%string.
Proof. unfold combine; simpl. destruct (_ <=? _)%Z; auto. Qed.


Lemma votes_trend per_tf :
  votes "trend" (map (fun kv => RegimeService.regime (snd kv)) per_tf)
  = Z.of_nat (trend_count per_tf).
Proof.
  unfold votes, trend_count. f_equal.
  induction per_tf as [| kv rest IH]; simpl; [reflexivity |].
  destruct (RegimeService.regime (snd kv) =? "trend")%string; simpl; congruence.
Qed.

Lemma trend_other_count per_tf :
  (trend_count per_tf + other_count per_tf = length per_tf)%nat.
Proof.
  unfold trend_count, other_count.
  induction per_tf as [| kv rest IH]; simpl; [reflexivity |].
  destruct (RegimeService.regime (snd kv) =? "trend")%string; simpl; lia.
Qed.

Lemma final_regime_majority per_tf :
  final_regime (combine per_tf)
  = (if (other_count per_tf <? trend_count per_tf)%nat then "trend" else "range")%string.
Proof.
  unfold combine; simpl. rewrite votes_trend, length_map.
  pose proof (trend_other_count per_tf) as H.
  destruct (Nat.ltb_spec (other_count per_tf) (trend_count per_tf));
    destruct (Z.ltb_spec (Z.of_nat (length per_tf) - Z.of_nat (trend_count per_tf))
                (Z.of_nat (trend_count per_tf))); try reflexivity; lia.
Qed.

(** C8: the final regime is ["trend"] exactly when the timeframes reporting
    ["trend"] outnumber the others; on a tie it is ["range"], in particular
    for two timeframes of which one reports a trend and the other a range,
    in either order. *)
Theorem majority_vote_ties_to_range :
  (forall per_tf,
     (other_count per_tf < trend_count per_tf)%nat ->
     final_regime (combine per_tf) = "trend"%string) /\
  (forall per_tf,
     (trend_count per_tf <= other_count per_tf)%nat ->
     final_regime (combine per_tf) = "range"%string) /\
  (forall tf1 tf2 r1 r2,
     RegimeService.regime r1 = "trend"%string ->
     RegimeService.regime r2 = "range"%string ->
     final_regime (combine [(tf1, r1); (tf2, r2)]) = "range"%string /\
     final_regime (combine [(tf2, r2); (tf1, r1)]) = "range"%string).
Proof.
  split; [| split].
  - intros per_tf H. rewrite final_regime_majority.
    destruct (Nat.ltb_spec (other_count per_tf) (trend_count per_tf)); [reflexivity | lia].
  - intros per_tf H. rewrite final_regime_majority.
    destruct (Nat.ltb_spec (other_count per_tf) (trend_count per_tf)); [lia | reflexivity].
  - intros tf1 tf2 r1 r2 H1 H2.
    split; rewrite final_regime_majority; unfold other_count, trend_count; simpl;
      rewrite H1, H2; reflexivity.
Qed.

End Aggregator.

(** ** The classifier returns for every accepted percentile *)

Section ClassifierTotal.
Variables ln sqrt : Q -> Q.
Variable settings : Settings.
Hypothesis Hp : percentile_ok settings.

Lemma quantile_returns a :
  exists thr, Np.quantile a (high_vol_percentile_threshold settings) = Some thr.
Proof.
  destruct Hp as [H0 H1]. unfold Np.quantile.
  apply Qle_bool_iff in H0. apply Qle_bool_iff in H1. rewrite H0, H1. simpl.
  eexists; reflexivity.
Qed.

Lemma vol_state_returns rets vol :
  exists v, RegimeService.vol_state sqrt settings rets vol = Some v /\
            (v = "high"%string \/ v = "low"%string).
Proof.
  unfold RegimeService.vol_state.
  destruct (60 <? length rets)%nat; [| eauto].
  destruct (10 <? length _)%nat; [| eauto].
  destruct (quantile_returns (Np.rolling_std sqrt 30 rets)) as [thr ->]. simpl.
  destruct (Py.geb vol thr); eauto.
Qed.

Lemma classify_returns candles :
  exists r, RegimeService.classify ln sqrt settings candles = Some r /\
            (RegimeService.regime r = "trend"%string \/
             RegimeService.regime r = "range"%string) /\
            (RegimeService.volatility_state r = "high"%string \/
             RegimeService.volatility_state r = "low"%string).
Proof.
  unfold RegimeService.classify.
  match goal with |- context [RegimeService.vol_state sqrt settings ?r ?v] =>
    destruct (vol_state_returns r v) as (vs & -> & Hvs) end.
  simpl. eexists. split; [reflexivity |]. simpl. split; [| exact Hvs].
  destruct (Py.geb _ _); auto.
Qed.

Lemma classify_all_returns candles_by_tf :
  exists per_tf,
    DecisionService.classify_all ln sqrt settings candles_by_tf = Some per_tf /\
    length per_tf = length candles_by_tf.
Proof.
  induction candles_by_tf as [| [tf df] rest (rs & IH & Hlen)]; simpl.
  - exists []. split; reflexivity.
  - destruct (classify_returns df) as (r & -> & _). simpl. rewrite IH. simpl.
    exists ((tf, r) :: rs). split; [reflexivity | simpl; congruence].
Qed.

End ClassifierTotal.

(** ** The decision pipeline *)

Section Pipeline.
Import DecisionService.
Variables ln sqrt : Q -> Q.
Variable settings : Settings.

Lemma check_trade_call_blocked db candles user symbol strategy e r s tf session now per_tf :
  classify_all ln sqrt settings candles = Some per_tf ->
  BehaviorService.allowed (snd (BehaviorService.check settings db user now)) = false ->
  snd (check_trade_call ln sqrt settings db candles user symbol strategy e r s tf
         session now)
  = Some {|
      decision := "BLOCK";
      quality_score := 0.0;
      risk_pct := RiskService.final_risk_pct (risk_of settings per_tf e r s)
                  * SessionService.risk_multiplier session;
      position_size_usd := RiskService.position_size_usd (risk_of settings per_tf e r s);
      reasons := BehaviorService.reasons (snd (BehaviorService.check settings db user now))
                 ++ RiskService.reasons (risk_of settings per_tf e r s);
      suggested_actions :=
        BehaviorService.suggested_actions (snd (BehaviorService.check settings db user now))
        ++ ["Switch to paper review mode."];
      market_regime := regime_label (multi_of per_tf);
      volatility_state := MultiTimeframeRegimeService.final_volatility (multi_of per_tf) |}.
Proof.
  intros Hc Hb. unfold check_trade_call.
  destruct (BehaviorService.check settings db user now) as [db' beh]. simpl in Hb.
  rewrite Hc, Hb. reflexivity.
Qed.

Lemma check_trade_call_allowed db candles user symbol strategy e r s tf session now per_tf :
  classify_all ln sqrt settings candles = Some per_tf ->
  BehaviorService.allowed (snd (BehaviorService.check settings db user now)) = true ->
  snd (check_trade_call ln sqrt settings db candles user symbol strategy e r s tf
         session now)
  = Some (allowed_call (multi_of per_tf) (risk_of settings per_tf e r s)
            (RiskService.final_risk_pct (risk_of settings per_tf e r s)
             * SessionService.risk_multiplier session) strategy).
Proof.
  intros Hc Hb. unfold check_trade_call.
  destruct (BehaviorService.check settings db user now) as [db' beh]. simpl in Hb.
  rewrite Hc, Hb. reflexivity.
Qed.

Lemma check_trade_call_returns db candles user symbol strategy e r s tf session now :
  percentile_ok settings ->
  exists per_tf call,
    classify_all ln sqrt settings candles = Some per_tf /\
    snd (check_trade_call ln sqrt settings db candles user symbol strategy e r s tf
           session now) = Some call.
Proof.
  intros Hp.
  destruct (classify_all_returns ln sqrt settings Hp candles) as (per_tf & Hc & _).
  exists per_tf.
  destruct (BehaviorService.allowed (snd (BehaviorService.check settings db user now))) eqn:Hb.
  - rewrite check_trade_call_allowed with (per_tf := per_tf) by assumption. eauto.
  - rewrite check_trade_call_blocked with (per_tf := per_tf) by assumption. eauto.
Qed.

(** The result of [check_trade] from the call it arrives at. *)
Lemma check_trade_of_call db candles user symbol strategy e r s tf session now :
  snd (check_trade ln sqrt settings db candles user symbol strategy e r s tf session now)
  = match snd (check_trade_call ln sqrt settings db candles user symbol strategy e r s tf
                 session now) with
    | None => inl (ValueError "Quantiles must be in the range [0, 1]")
    | Some call => DecisionResult_call call
    end.
Proof.
  unfold check_trade.
  destruct (check_trade_call ln sqrt settings db candles user symbol strategy e r s tf
              session now) as [db' [call |]]; reflexivity.
Qed.

(** [check_trade] returns no result: every path ends in an exception. *)
Lemma check_trade_returns_nothing db candles user symbol strategy e r s tf session now res :
  snd (check_trade ln sqrt settings db candles user symbol strategy e r s tf session now)
  <> inr res.
Proof.
  rewrite check_trade_of_call. destruct (snd (check_trade_call _ _ _ _ _ _ _ _ _ _ _ _ _ _));
    discriminate.
Qed.

(** For a percentile [np.quantile] accepts, the exception is the
    [TypeError] of the [DecisionResult(...)] call. *)
Lemma check_trade_type_error db candles user symbol strategy e r s tf session now :
  percentile_ok settings ->
  exists msg,
    snd (check_trade ln sqrt settings db candles user symbol strategy e r s tf session now)
    = inl (TypeError msg).
Proof.
  intros Hp.
  destruct (check_trade_call_returns db candles user symbol strategy e r s tf session now Hp)
    as (per_tf & call & _ & Hcall).
  rewrite check_trade_of_call, Hcall. eexists. reflexivity.
Qed.

Ltac split_allowed_call :=
  unfold allowed_call;
  repeat match goal with
         | |- context [let '(_, _) := ?p in _] => destruct p
         | |- context [if ?b then _ else _] => destruct b
         end.

Lemma allowed_call_risk_pct multi risk f strategy :
  risk_pct (allowed_call multi risk f strategy) = f.
Proof. split_allowed_call; reflexivity. Qed.


Lemma allowed_call_volatility_state multi risk f strategy :
  volatility_state (allowed_call multi risk f strategy)
  = MultiTimeframeRegimeService.final_volatility multi.
Proof. split_allowed_call; reflexivity. Qed.

Lemma allowed_call_quality_score multi risk f strategy :
  quality_score (allowed_call multi risk f strategy)
  = fst (_strategy_fit_score (MultiTimeframeRegimeService.final_regime multi)
           (MultiTimeframeRegimeService.final_volatility multi) strategy).
Proof. split_allowed_call; reflexivity. Qed.

End Pipeline.

Section PipelineClaims.
Import DecisionService.
Variables ln sqrt : Q -> Q.
Variable settings : Settings.


Lemma allowed_call_decision_allow multi risk f strategy :
  0.55 <= fst (_strategy_fit_score (MultiTimeframeRegimeService.final_regime multi)
                 (MultiTimeframeRegimeService.final_volatility multi) strategy) ->
  decision (allowed_call multi risk f strategy) = "ALLOW"%string.
Proof.
  intros Hq. unfold allowed_call.
  destruct (_strategy_fit_score _ _ strategy) as [q fit_reasons]. simpl in Hq.
  assert (H55 : Py.ltb q 0.55 = false) by (apply ltb_false; exact Hq).
  assert (H35 : Py.ltb q 0.35 = false) by (apply ltb_false; lra).
  rewrite H55, H35, andb_false_r.
  destruct (_ =? "high")%string; reflexivity.
Qed.

(** The score of the scorer on what the aggregator produces, by the
    consensus volatility. *)
Lemma fit_score_of_aggregate per_tf strategy :
  let multi := multi_of per_tf in
  let score := fst (_strategy_fit_score (MultiTimeframeRegimeService.final_regime multi)
                      (MultiTimeframeRegimeService.final_volatility multi) strategy) in
  0.85 <= score /\
  (MultiTimeframeRegimeService.final_volatility multi = "low"%string /\ score == 0.90 \/
   MultiTimeframeRegimeService.final_volatility multi = "high"%string /\ score == 0.85).
Proof.
  intros multi score. subst multi score. unfold multi_of.
  rewrite (fit_score_of_pipeline_values _ _ strategy
             (final_regime_values per_tf) (final_volatility_values per_tf)).
  destruct (final_volatility_values per_tf) as [Hv | Hv]; rewrite Hv; simpl.
  - split; [discriminate | right; split; reflexivity].
  - split; [discriminate | left; split; reflexivity].
Qed.

(** C3: when the behavior check allows the trade, [check_trade] arrives at
    a [DecisionResult(...)] call whose quality score is the scorer's on the
    aggregator's regime and volatility: 0.90 under low and 0.85 under high
    consensus volatility, hence at least 0.85. Neither quality test
    ([< 0.55], [< 0.35]) holds, the decision of the call is ["ALLOW"], and
    [check_trade] returns no result with decision ["WARN"]. *)
Theorem allowed_trade_scores_at_least_085
    db candles user symbol strategy e r s tf session now :
  percentile_ok settings ->
  BehaviorService.allowed (snd (BehaviorService.check settings db user now)) = true ->
  exists per_tf call,
    classify_all ln sqrt settings candles = Some per_tf /\
    snd (check_trade_call ln sqrt settings db candles user symbol strategy e r s tf
           session now) = Some call /\
    quality_score call
    = fst (_strategy_fit_score
             (MultiTimeframeRegimeService.final_regime (multi_of per_tf))
             (MultiTimeframeRegimeService.final_volatility (multi_of per_tf)) strategy) /\
    volatility_state call = MultiTimeframeRegimeService.final_volatility (multi_of per_tf) /\
    0.85 <= quality_score call /\
    (MultiTimeframeRegimeService.final_volatility (multi_of per_tf) = "low"%string /\
     quality_score call == 0.90 \/
     MultiTimeframeRegimeService.final_volatility (multi_of per_tf) = "high"%string /\
     quality_score call == 0.85) /\
    Py.ltb (quality_score call) 0.55 = false /\
    Py.ltb (quality_score call) 0.35 = false /\
    decision call = "ALLOW"%string /\
    ~ (exists res,
         snd (check_trade ln sqrt settings db candles user symbol strategy e r s tf
                session now) = inr res /\
         res_decision res = "WARN"%string).
Proof.
  intros Hp Hb.
  destruct (classify_all_returns ln sqrt settings Hp candles) as (per_tf & Hc & _).
  exists per_tf.
  rewrite check_trade_call_allowed with (per_tf := per_tf) by assumption.
  eexists. split; [exact Hc |]. split; [reflexivity |].
  rewrite allowed_call_quality_score, allowed_call_volatility_state.
  destruct (fit_score_of_aggregate per_tf strategy) as [Hge Hcases].
  split; [reflexivity |]. split; [reflexivity |].
  split; [exact Hge |]. split; [exact Hcases |].
  split; [apply ltb_false; lra |]. split; [apply ltb_false; lra |].
  split; [apply allowed_call_decision_allow; lra |].
  intros (res & Hres & _).
  exact (check_trade_returns_nothing ln sqrt settings db candles user symbol strategy
           e r s tf session now res Hres).
Qed.


(** The behavior check refuses exactly when the cooldown is active or the
    daily cap is reached. *)
Lemma check_not_allowed_iff db user now :
  let ds := snd (BehaviorService.get_or_create_daily db user (Py.date_of now)) in
  BehaviorService.allowed (snd (BehaviorService.check settings db user now)) = false
  <-> (exists until, Models.cooldown_until ds = Some until /\ (now < until)%Z)
      \/ (max_trades_per_day settings <= Models.trades_count ds)%Z.
Proof.
  unfold BehaviorService.check.
  destruct (BehaviorService.get_or_create_daily db user (Py.date_of now)) as [db' ds].
  simpl. unfold BehaviorService.check_daily_cap.
  destruct (Models.cooldown_until ds) as [until |].
  - destruct (Z.ltb_spec now until); simpl.
    + split; [intros _; left; eauto | reflexivity].
    + destruct (Z.leb_spec (max_trades_per_day settings) (Models.trades_count ds)); simpl.
      * split; [intros _; right; assumption | reflexivity].
      * split; [discriminate |].
        intros [(u & Hu & Hlt) | Hcap]; [injection Hu as <-; lia | lia].
  - destruct (Z.leb_spec (max_trades_per_day settings) (Models.trades_count ds)); simpl.
    + split; [intros _; right; assumption | reflexivity].
    + split; [discriminate |].
      intros [(u & Hu & _) | Hcap]; [discriminate | lia].
Qed.

(** C6, as far as the code gets: when the behavior check refuses the trade,
    [check_trade] arrives at the [DecisionResult(...)] call with decision
    ["BLOCK"], quality score 0, the risk percentage and position size of the
    risk sizer (the former times the session multiplier), the behavior
    reasons followed by the risk reasons, and the review-mode suggestion
    among the suggested actions; the call raises [TypeError], so no result
    is returned. *)
Theorem behavior_refusal_blocks
    db candles user symbol strategy e r s tf session now :
  percentile_ok settings ->
  BehaviorService.allowed (snd (BehaviorService.check settings db user now)) = false ->
  exists per_tf call,
    classify_all ln sqrt settings candles = Some per_tf /\
    snd (check_trade_call ln sqrt settings db candles user symbol strategy e r s tf
           session now) = Some call /\
    decision call = "BLOCK"%string /\
    quality_score call == 0 /\
    risk_pct call
    == RiskService.final_risk_pct (risk_of settings per_tf e r s)
       * SessionService.risk_multiplier session /\
    position_size_usd call == RiskService.position_size_usd (risk_of settings per_tf e r s) /\
    reasons call
    = BehaviorService.reasons (snd (BehaviorService.check settings db user now))
      ++ RiskService.reasons (risk_of settings per_tf e r s) /\
    In "Switch to paper review mode."%string (suggested_actions call) /\
    exists msg,
      snd (check_trade ln sqrt settings db candles user symbol strategy e r s tf
             session now) = inl (TypeError msg).
Proof.
  intros Hp Hb.
  destruct (classify_all_returns ln sqrt settings Hp candles) as (per_tf & Hc & _).
  exists per_tf.
  pose proof (check_trade_type_error ln sqrt settings db candles user symbol strategy
                e r s tf session now Hp) as Hraise.
  rewrite check_trade_call_blocked with (per_tf := per_tf) by assumption.
  eexists. split; [exact Hc |]. split; [reflexivity |].
  cbn [decision quality_score risk_pct position_size_usd reasons suggested_actions].
  split; [reflexivity |]. split; [reflexivity |]. split; [reflexivity |].
  split; [reflexivity |]. split; [reflexivity |].
  split; [apply in_or_app; right; left; reflexivity | exact Hraise].
Qed.


End PipelineClaims.

(** ** The behavior guard *)

Section Behavior.
Import BehaviorService.
Variable settings : Settings.

Lemma get_or_create_lookup db user day :
  fst (get_or_create_daily db user day) !! (user, day)
  = Some (snd (get_or_create_daily db user day)).
Proof.
  unfold get_or_create_daily.
  destruct (db !! (user, day)) eqn:E; simpl; [exact E | apply lookup_insert_eq].
Qed.

Lemma get_or_create_fresh db user day :
  db !! (user, day) = None ->
  snd (get_or_create_daily db user day) = Models.new_daily user day.
Proof. intros E. unfold get_or_create_daily. rewrite E. reflexivity. Qed.

Lemma get_or_create_stored db user day ds :
  db !! (user, day) = Some ds ->
  get_or_create_daily db user day = (db, ds).
Proof. intros E. unfold get_or_create_daily. rewrite E. reflexivity. Qed.

(** The row of the day of [now] after a close. *)
Lemma update_lookup db user pnl now :
  update_on_trade_close settings db user pnl now !! (user, Py.date_of now)
  = Some (closed_row settings
            (snd (get_or_create_daily db user (Py.date_of now))) pnl now).
Proof.
  unfold update_on_trade_close.
  destruct (get_or_create_daily db user (Py.date_of now)) as [db' ds]. simpl.
  apply lookup_insert_eq.
Qed.

Lemma closed_row_win ds pnl now :
  0 < pnl -> Models.consecutive_losses (closed_row settings ds pnl now) = 0%Z.
Proof.
  intros H. unfold closed_row. apply gtb_true in H. rewrite H. reflexivity.
Qed.

Lemma closed_row_loss ds pnl now :
  pnl <= 0 ->
  Models.consecutive_losses (closed_row settings ds pnl now)
  = (Models.consecutive_losses ds + 1)%Z /\
  Models.cooldown_until (closed_row settings ds pnl now)
  = if (2 <=? Models.consecutive_losses ds + 1)%Z
    then Some (now + Py.timedelta_minutes (cooldown_minutes_after_two_losses settings))%Z
    else Models.cooldown_until ds.
Proof.
  intros H. unfold closed_row.
  assert (E : Py.gtb pnl 0 = false) by (apply ltb_false; exact H).
  rewrite E. split; reflexivity.
Qed.

(** A winning close leaves the day's row with no consecutive loss. *)
Lemma win_resets_consecutive_losses db user pnl now :
  0 < pnl ->
  exists ds,
    update_on_trade_close settings db user pnl now !! (user, Py.date_of now) = Some ds /\
    Models.consecutive_losses ds = 0%Z.
Proof.
  intros H. rewrite update_lookup. eexists. split; [reflexivity |].
  apply closed_row_win, H.
Qed.

(** C5: starting from a day without a row for the user, after two losing
    closes at [t1] and [t2] of that day the row holds a cooldown until [t2]
    plus the configured minutes; with a positive number of minutes, a check
    at [t2] refuses the trade and reports that cooldown; and a winning
    close after them leaves [consecutive_losses] at 0. *)
Theorem two_losses_start_cooldown db user pnl1 pnl2 t1 t2 :
  (0 < cooldown_minutes_after_two_losses settings)%Z ->
  db !! (user, Py.date_of t1) = None ->
  Py.date_of t2 = Py.date_of t1 ->
  pnl1 <= 0 -> pnl2 <= 0 ->
  let db2 :=
    update_on_trade_close settings
      (update_on_trade_close settings db user pnl1 t1) user pnl2 t2 in
  let until :=
    (t2 + Py.timedelta_minutes (cooldown_minutes_after_two_losses settings))%Z in
  (exists ds, db2 !! (user, Py.date_of t2) = Some ds /\
              Models.consecutive_losses ds = 2%Z /\
              Models.cooldown_until ds = Some until) /\
  fst (check settings db2 user t2) = db2 /\
  allowed (snd (check settings db2 user t2)) = false /\
  cooldown_until (snd (check settings db2 user t2)) = Some until /\
  (forall pnl3 t3, 0 < pnl3 ->
     exists ds',
       update_on_trade_close settings db2 user pnl3 t3 !! (user, Py.date_of t3) = Some ds' /\
       Models.consecutive_losses ds' = 0%Z).
Proof.
  intros Hmin Hfresh Hday H1 H2 db2 until.
  pose proof (update_lookup db user pnl1 t1) as L1.
  rewrite (get_or_create_fresh _ _ _ Hfresh) in L1.
  pose proof (update_lookup (update_on_trade_close settings db user pnl1 t1) user pnl2 t2) as L2.
  rewrite Hday in L2 at 2.
  rewrite (get_or_create_stored _ _ _ _ L1) in L2. simpl in L2. fold db2 in L2.
  destruct (closed_row_loss (Models.new_daily user (Py.date_of t1)) pnl1 t1 H1) as [C1 _].
  destruct (closed_row_loss
              (closed_row settings (Models.new_daily user (Py.date_of t1)) pnl1 t1)
              pnl2 t2 H2) as [C2 U2].
  rewrite C1 in C2, U2. simpl in C2, U2. fold until in U2.
  split.
  { eexists. split; [exact L2 |]. split; [exact C2 | exact U2]. }
  assert (Hcheck : check settings db2 user t2
          = (db2, {| allowed := false;
                     reasons := ["Cooldown active until " +:+ Py.isoformat until +:+ "Z."];
                     suggested_actions := ["Wait out the cooldown. Review last two trades."];
                     cooldown_until := Some until |})).
  { unfold check. rewrite (get_or_create_stored _ _ _ _ L2), U2.
    assert (E : (t2 <? until)%Z = true).
    { apply Z.ltb_lt. unfold until, Py.timedelta_minutes. lia. }
    rewrite E. reflexivity. }
  rewrite Hcheck. simpl.
  split; [reflexivity |]. split; [reflexivity |]. split; [reflexivity |].
  intros pnl3 t3 H3. apply win_resets_consecutive_losses, H3.
Qed.

(** ** The daily counters *)

Lemma new_daily_counts_agree user day :
  History.counts_agree (Models.new_daily user day).
Proof. reflexivity. Qed.

Lemma closed_row_counts ds pnl now :
  Models.trades_count (closed_row settings ds pnl now) = (Models.trades_count ds + 1)%Z /\
  (Models.wins (closed_row settings ds pnl now) = (Models.wins ds + 1)%Z /\
   Models.losses (closed_row settings ds pnl now) = Models.losses ds
   \/
   Models.wins (closed_row settings ds pnl now) = Models.wins ds /\
   Models.losses (closed_row settings ds pnl now) = (Models.losses ds + 1)%Z).
Proof.
  unfold closed_row. destruct (Py.gtb pnl 0); simpl; auto.
Qed.

Lemma closed_row_counts_agree ds pnl now :
  History.counts_agree ds -> History.counts_agree (closed_row settings ds pnl now).
Proof.
  unfold History.counts_agree. intros H.
  destruct (closed_row_counts ds pnl now) as [Ht [[Hw Hl] | [Hw Hl]]]; lia.
Qed.

Lemma get_or_create_preserves db user day :
  History.table_counts_agree db ->
  History.table_counts_agree (fst (get_or_create_daily db user day)) /\
  History.counts_agree (snd (get_or_create_daily db user day)).
Proof.
  intros Hdb. unfold get_or_create_daily.
  destruct (db !! (user, day)) eqn:E; simpl.
  - split; [exact Hdb | exact (Hdb _ _ E)].
  - split; [| reflexivity].
    intros key ds. rewrite lookup_insert.
    case_decide; [intros [= <-]; reflexivity | apply Hdb].
Qed.

Lemma step_preserves db db' :
  History.step settings db db' ->
  History.table_counts_agree db -> History.table_counts_agree db'.
Proof.
  intros Hstep Hdb. destruct Hstep as [db user now | db user pnl now].
  - unfold check.
    destruct (get_or_create_preserves db user (Py.date_of now) Hdb) as [Hdb' _].
    destruct (get_or_create_daily db user (Py.date_of now)) as [db' ds]. simpl in *.
    destruct (Models.cooldown_until ds) as [u |]; [destruct (_ <? _)%Z |]; exact Hdb'.
  - unfold update_on_trade_close.
    destruct (get_or_create_preserves db user (Py.date_of now) Hdb) as [Hdb' Hds].
    destruct (get_or_create_daily db user (Py.date_of now)) as [db' ds]. simpl in *.
    intros key row. rewrite lookup_insert.
    case_decide; [intros [= <-]; apply closed_row_counts_agree, Hds | apply Hdb'].
Qed.

(** C10: [trades_count == wins + losses] holds for a new row; a close adds 1
    to [trades_count] and 1 to exactly one of [wins] and [losses], so keeps
    it; and it holds for every row of every table reached from the empty
    one by behavior checks and trade closes. *)
Theorem trades_count_is_wins_plus_losses :
  (forall user day, History.counts_agree (Models.new_daily user day)) /\
  (forall ds pnl now,
     Models.trades_count (closed_row settings ds pnl now) = (Models.trades_count ds + 1)%Z /\
     (Models.wins (closed_row settings ds pnl now) = (Models.wins ds + 1)%Z /\
      Models.losses (closed_row settings ds pnl now) = Models.losses ds
      \/
      Models.wins (closed_row settings ds pnl now) = Models.wins ds /\
      Models.losses (closed_row settings ds pnl now) = (Models.losses ds + 1)%Z) /\
     (History.counts_agree ds -> History.counts_agree (closed_row settings ds pnl now))) /\
  (forall db, History.reachable settings db ->
     forall key ds, db !! key = Some ds -> History.counts_agree ds).
Proof.
  split; [exact new_daily_counts_agree |]. split.
  - intros ds pnl now.
    destruct (closed_row_counts ds pnl now) as [Ht Hwl].
    split; [exact Ht |]. split; [exact Hwl | apply closed_row_counts_agree].
  - intros db Hreach. induction Hreach as [| db db' _ IH Hstep].
    + intros key ds. rewrite lookup_empty. discriminate.
    + exact (step_preserves db db' Hstep IH).
Qed.

End Behavior.

(** ** The classifier on a flat series *)

Section FlatSeries.
Variables ln sqrt : Q -> Q.
Variable settings : Settings.

Local Abbreviation zeros := (Forall (fun v : Q => v == 0)).

Lemma sum_zeros a : zeros a -> Np.sum a == 0.
Proof.
  induction 1 as [| v a Hv _ IH]; simpl; [reflexivity |].
  rewrite Hv, IH. reflexivity.
Qed.

Lemma mean_zeros a : zeros a -> Np.mean a == 0.
Proof.
  intros H. unfold Np.mean, Qdiv. rewrite (sum_zeros a H). apply Qmult_0_l.
Qed.

Lemma sq_dev_zeros a : zeros a -> Np.sq_dev a == 0.
Proof.
  intros H. unfold Np.sq_dev. apply sum_zeros.
  apply Forall_map. pose proof (mean_zeros a H) as Hm.
  eapply Forall_impl; [exact H |]. simpl. intros v Hv.
  rewrite Hv, Hm. reflexivity.
Qed.

Lemma len_cons v a : Np.len (v :: a) == Np.len a + 1.
Proof.
  unfold Np.len. simpl length. rewrite Nat2Z.inj_succ, <- Z.add_1_r, inject_Z_plus.
  reflexivity.
Qed.

Lemma len_nonneg a : 0 <= Np.len a.
Proof.
  unfold Np.len. change 0 with (inject_Z 0). rewrite <- Zle_Qle. lia.
Qed.

Lemma sum_constant L a : Forall (fun v => v = L) a -> Np.sum a == Np.len a * L.
Proof.
  induction 1 as [| v a Hv _ IH].
  - simpl. unfold Np.len. simpl. ring.
  - rewrite len_cons. simpl. rewrite Hv, IH. ring.
Qed.

Lemma mean_constant L v a : Forall (fun w => w = L) (v :: a) -> Np.mean (v :: a) == L.
Proof.
  intros H. unfold Np.mean. rewrite (sum_constant L _ H).
  pose proof (len_nonneg a) as Hn. rewrite len_cons. field. lra.
Qed.

Lemma mul_zeros_r a b : zeros b -> zeros (Np.mul a b).
Proof.
  intros H. revert a. induction H as [| y b Hy _ IH]; intros [| x a]; simpl;
    try constructor; [rewrite Hy; ring | apply IH].
Qed.

Lemma ols_slope_constant L x y :
  Forall (fun v => v = L) y -> RegimeService.ols_slope x y == 0.
Proof.
  intros H. unfold RegimeService.ols_slope, Qdiv.
  rewrite sum_zeros; [apply Qmult_0_l |].
  apply mul_zeros_r. apply Forall_map.
  destruct y as [| v y]; [constructor |].
  pose proof (mean_constant L v y H) as Hm.
  eapply Forall_impl; [exact H |]. simpl. intros w ->. rewrite Hm. ring.
Qed.

Lemma last_n_Forall {A} (P : A -> Prop) n a : Forall P a -> Forall P (Np.last_n n a).
Proof. intros H. destruct n; simpl; [exact H | apply Forall_drop, H]. Qed.

Lemma diff_constant L a : Forall (fun v => v = L) a -> zeros (Np.diff a).
Proof.
  induction 1 as [| v a Hv Ha IH]; simpl; [constructor |].
  destruct a as [| w a]; [constructor |].
  constructor; [| exact IH].
  inversion Ha; subst. ring.
Qed.

Lemma length_diff a : length (Np.diff a) = (length a - 1)%nat.
Proof.
  induction a as [| v a IH]; [reflexivity |].
  destruct a as [| w a]; [reflexivity |].
  change (Np.diff (v :: w :: a)) with ((w - v) :: Np.diff (w :: a)).
  simpl length in *. lia.
Qed.

Section WithSqrtZero.
Hypothesis sqrt_zero : forall x, x == 0 -> sqrt x == 0.

Lemma std_zeros a : zeros a -> Np.std sqrt a == 0.
Proof.
  intros H. unfold Np.std. apply sqrt_zero. unfold Qdiv.
  rewrite (sq_dev_zeros a H). apply Qmult_0_l.
Qed.

Lemma sample_std_zeros a : zeros a -> Np.sample_std sqrt a == 0.
Proof.
  intros H. unfold Np.sample_std. apply sqrt_zero. unfold Qdiv.
  rewrite (sq_dev_zeros a H). apply Qmult_0_l.
Qed.

Lemma rolling_std_zeros w a : zeros a -> zeros (Np.rolling_std sqrt w a).
Proof.
  intros H. unfold Np.rolling_std. destruct (w <=? length a)%nat; [| constructor].
  apply Forall_map, Forall_forall. intros i _.
  apply sample_std_zeros, Forall_take, Forall_drop, H.
Qed.

Lemma length_rolling_std w a :
  (w <= length a)%nat -> length (Np.rolling_std sqrt w a) = (length a - w + 1)%nat.
Proof.
  intros H. unfold Np.rolling_std.
  destruct (Nat.leb_spec w (length a)); [| lia].
  rewrite length_map, length_seq. reflexivity.
Qed.

Lemma insert_sorted_Forall (P : Q -> Prop) v a :
  P v -> Forall P a -> Forall P (Np.insert_sorted v a).
Proof.
  intros Hv. induction 1 as [| w a Hw Ha IH]; simpl.
  - constructor; [exact Hv | constructor].
  - destruct (Qle_bool v w); constructor; auto.
Qed.

Lemma sort_Forall (P : Q -> Prop) a : Forall P a -> Forall P (Np.sort a).
Proof.
  unfold Np.sort. induction 1 as [| v a Hv _ IH]; simpl; [constructor |].
  apply insert_sorted_Forall; assumption.
Qed.

Lemma nth_zeros i a : zeros a -> nth i a 0 == 0.
Proof.
  intros H. revert i. induction H as [| v a Hv _ IH]; intros [| i]; simpl;
    try reflexivity; [exact Hv | apply IH].
Qed.

Lemma quantile_zeros a :
  percentile_ok settings -> zeros a ->
  exists thr, Np.quantile a (high_vol_percentile_threshold settings) = Some thr /\
              thr == 0.
Proof.
  intros [H0 H1] H. unfold Np.quantile.
  apply Qle_bool_iff in H0. apply Qle_bool_iff in H1. rewrite H0, H1. simpl.
  eexists. split; [reflexivity |].
  pose proof (sort_Forall _ a H) as Hs.
  rewrite !(nth_zeros _ _ Hs). ring.
Qed.

(** The volatility state of a series without price change: ["high"] as soon
    as there are more than 60 returns; both the current volatility and the
    percentile threshold are 0 and the test is [vol >= thr]. *)
Lemma vol_state_zeros rets vol :
  percentile_ok settings -> zeros rets -> vol == 0 ->
  RegimeService.vol_state sqrt settings rets vol
  = Some (if (60 <? length rets)%nat then "high" else "low")%string.
Proof.
  intros Hp H Hvol. unfold RegimeService.vol_state.
  destruct (Nat.ltb_spec 60 (length rets)) as [Hlen | Hlen]; [| reflexivity].
  rewrite length_rolling_std by lia.
  destruct (Nat.ltb_spec 10 (length rets - 30 + 1)); [| lia].
  destruct (quantile_zeros (Np.rolling_std sqrt 30 rets) Hp
              (rolling_std_zeros 30 rets H)) as (thr & -> & Hthr).
  simpl. assert (E : Py.geb vol thr = true).
  { apply geb_true. rewrite Hthr, Hvol. apply Qle_refl. }
  rewrite E. reflexivity.
Qed.

(** A series whose closes are all [c]: the regime is ["range"] for a
    positive slope threshold, and the volatility state is ["high"] from 62
    candles on, ["low"] below. *)
Lemma classify_flat c candles :
  percentile_ok settings ->
  0 < trend_slope_threshold settings ->
  Forall (fun k => RegimeService.close k = c) candles ->
  exists r,
    RegimeService.classify ln sqrt settings candles = Some r /\
    RegimeService.regime r = "range"%string /\
    RegimeService.volatility_state r
    = (if (62 <=? length candles)%nat then "high" else "low")%string.
Proof.
  intros Hp Hthr Hflat. unfold RegimeService.classify.
  set (logp := map (fun x => ln (x + 1e-9)) (map RegimeService.close candles)).
  assert (Hlogp : Forall (fun v => v = ln (c + 1e-9)) logp).
  { unfold logp. apply Forall_map, Forall_map.
    eapply Forall_impl; [exact Hflat |]. simpl. intros k ->. reflexivity. }
  assert (Hlen : length logp = length candles)
    by (unfold logp; rewrite !length_map; reflexivity).
  pose proof (diff_constant _ _ Hlogp) as Hrets.
  pose proof (length_diff logp) as Hlr.
  set (window := Nat.min 120 (length logp)).
  set (vol := if (window <=? length (Np.diff logp))%nat
              then Np.std sqrt (Np.last_n window (Np.diff logp))
              else if (0 <? length (Np.diff logp))%nat
                   then Np.std sqrt (Np.diff logp) else 0.0).
  assert (Hvol : vol == 0).
  { unfold vol. destruct (_ <=? _)%nat; [apply std_zeros, last_n_Forall, Hrets |].
    destruct (_ <? _)%nat; [apply std_zeros, Hrets | reflexivity]. }
  set (slope := RegimeService.ols_slope (Np.arange window) (Np.last_n window logp)).
  assert (Hslope : Py.geb (Qabs slope) (trend_slope_threshold settings) = false).
  { apply not_true_iff_false. rewrite geb_true. unfold slope.
    rewrite (ols_slope_constant (ln (c + 1e-9))) by (apply last_n_Forall, Hlogp).
    apply Qlt_not_le. exact Hthr. }
  clearbody slope vol.
  assert (Hcount : (60 <? length (Np.diff logp))%nat = (62 <=? length candles)%nat).
  { rewrite Hlr, Hlen.
    destruct (Nat.ltb_spec 60 (length candles - 1));
      destruct (Nat.leb_spec 62 (length candles)); try reflexivity; lia. }
  rewrite (vol_state_zeros _ vol Hp Hrets Hvol), Hslope, Hcount.
  eexists. split; [reflexivity |]. split; reflexivity.
Qed.

(** C2, as the code has it: for 200 candles with one close, a positive
    slope threshold and a percentile in [0, 1], the classifier returns
    regime ["range"] and volatility state ["high"]. *)
Theorem classify_flat_200 c candles :
  percentile_ok settings ->
  0 < trend_slope_threshold settings ->
  length candles = 200%nat ->
  Forall (fun k => RegimeService.close k = c) candles ->
  exists r,
    RegimeService.classify ln sqrt settings candles = Some r /\
    RegimeService.regime r = "range"%string /\
    RegimeService.volatility_state r = "high"%string.
Proof.
  intros Hp Hthr Hlen Hflat.
  destruct (classify_flat c candles Hp Hthr Hflat) as (r & Hr & Hreg & Hvol).
  exists r. rewrite Hlen in Hvol. auto.
Qed.

End WithSqrtZero.
End FlatSeries.

(** ** The scorer in binary64 *)

#[local] Set Warnings "-inexact-float".

(** The binary64 score for ["RANGE"], low volatility and a breakout strategy
    is the binary64 number 0.55, so it is not below the 0.55 threshold. *)
Lemma binary64_score_uppercase_range :
  PrimFloat.eqb (Binary64._strategy_fit_score "RANGE" "low" "breakout") 0.55%float = true /\
  PrimFloat.ltb (Binary64._strategy_fit_score "RANGE" "low" "breakout") 0.55%float = false.
Proof. split; reflexivity. Qed.

(** For the regimes and volatility states of the pipeline the binary64
    scores are 0.9 and 0.85, on the same side of both thresholds as the
    exact ones. *)
Lemma binary64_score_of_pipeline_values regime strategy :
  regime = "trend"%string \/ regime = "range"%string ->
  Binary64._strategy_fit_score regime "low" strategy = 0.9%float /\
  Binary64._strategy_fit_score regime "high" strategy = 0.85%float /\
  PrimFloat.ltb 0.9%float 0.55%float = false /\
  PrimFloat.ltb 0.85%float 0.55%float = false /\
  PrimFloat.ltb 0.9%float 0.35%float = false /\
  PrimFloat.ltb 0.85%float 0.35%float = false.
Proof.
  intros Hr. unfold Binary64._strategy_fit_score.
  assert (E : (regime =? "RANGE")%string = false) by (destruct Hr; subst; reflexivity).
  rewrite E, andb_false_r. repeat split; reflexivity.
Qed.

(** ** The statements at concrete inputs *)

Lemma sqrt_approx_zero x : x == 0 -> Np.sqrt_approx x == 0.
Proof.
  intros H. assert (E : Qnum x = 0%Z).
  { unfold Qeq in H. simpl in H. lia. }
  unfold Np.sqrt_approx. rewrite E. reflexivity.
Qed.

Lemma example_percentile_ok : percentile_ok example_settings.
Proof. split; discriminate. Qed.

Lemma flat_200_closes :
  Forall (fun k => RegimeService.close k = 100) Examples.flat_200.
Proof.
  apply List.Forall_forall. intros k Hk. apply repeat_spec in Hk. subst. reflexivity.
Qed.

Lemma classify_flat_200_example :
  exists r,
    RegimeService.classify Np.ln_approx Np.sqrt_approx example_settings Examples.flat_200
    = Some r /\
    RegimeService.regime r = "range"%string /\
    RegimeService.volatility_state r = "high"%string.
Proof.
  apply (classify_flat_200 Np.ln_approx Np.sqrt_approx example_settings
           sqrt_approx_zero 100 Examples.flat_200).
  - exact example_percentile_ok.
  - reflexivity.
  - reflexivity.
  - exact flat_200_closes.
Defined.

(** On 200 candles closing at 100 the classifier does not return a range
    regime with low volatility. *)
Lemma flat_200_is_not_low_volatility :
  ~ exists r,
      RegimeService.classify Np.ln_approx Np.sqrt_approx example_settings Examples.flat_200
      = Some r /\
      RegimeService.regime r = "range"%string /\
      RegimeService.volatility_state r = "low"%string.
Proof.
  intros (r & Hr & _ & Hlow).
  destruct (classify_flat Np.ln_approx Np.sqrt_approx example_settings
              sqrt_approx_zero 100 Examples.flat_200 example_percentile_ok
              eq_refl flat_200_closes) as (r' & Hr' & _ & Hv).
  rewrite Hr in Hr'. injection Hr' as <-. rewrite Hlow in Hv. discriminate Hv.
Qed.

Lemma allowed_trade_example :
  exists per_tf call,
    DecisionService.classify_all Np.ln_approx Np.sqrt_approx example_settings
      Examples.candles_by_tf = Some per_tf /\
    snd (DecisionService.check_trade_call Np.ln_approx Np.sqrt_approx example_settings ∅
           Examples.candles_by_tf "u1" "BTCUSDT" "breakout" 10000 2.0 1.0 "1m"
           SessionService._asia Examples.t1) = Some call /\
    DecisionService.quality_score call
    = fst (DecisionService._strategy_fit_score
             (MultiTimeframeRegimeService.final_regime (multi_of per_tf))
             (MultiTimeframeRegimeService.final_volatility (multi_of per_tf)) "breakout") /\
    DecisionService.volatility_state call
    = MultiTimeframeRegimeService.final_volatility (multi_of per_tf) /\
    0.85 <= DecisionService.quality_score call /\
    (MultiTimeframeRegimeService.final_volatility (multi_of per_tf) = "low"%string /\
     DecisionService.quality_score call == 0.90 \/
     MultiTimeframeRegimeService.final_volatility (multi_of per_tf) = "high"%string /\
     DecisionService.quality_score call == 0.85) /\
    Py.ltb (DecisionService.quality_score call) 0.55 = false /\
    Py.ltb (DecisionService.quality_score call) 0.35 = false /\
    DecisionService.decision call = "ALLOW"%string /\
    ~ (exists res,
         snd (DecisionService.check_trade Np.ln_approx Np.sqrt_approx example_settings ∅
                Examples.candles_by_tf "u1" "BTCUSDT" "breakout" 10000 2.0 1.0 "1m"
                SessionService._asia Examples.t1) = inr res /\
         DecisionService.res_decision res = "WARN"%string).
Proof.
  apply (allowed_trade_scores_at_least_085 Np.ln_approx Np.sqrt_approx example_settings).
  - exact example_percentile_ok.
  - vm_compute. reflexivity.
Defined.


Lemma two_losses_example :
  let db2 :=
    BehaviorService.update_on_trade_close example_settings
      (BehaviorService.update_on_trade_close example_settings ∅ "u1" (-10) Examples.t1)
      "u1" (-5) Examples.t2 in
  BehaviorService.allowed (snd (BehaviorService.check example_settings db2 "u1" Examples.t2))
  = false /\
  BehaviorService.cooldown_until
    (snd (BehaviorService.check example_settings db2 "u1" Examples.t2))
  = Some (Examples.t2 + Py.timedelta_minutes 30)%Z.
Proof.
  assert (Hmin : (0 < cooldown_minutes_after_two_losses example_settings)%Z) by reflexivity.
  assert (Hfresh : (∅ : DB) !! ("u1"%string, Py.date_of Examples.t1) = None) by reflexivity.
  assert (Hday : Py.date_of Examples.t2 = Py.date_of Examples.t1) by reflexivity.
  assert (H1 : -10 <= 0) by discriminate.
  assert (H2 : -5 <= 0) by discriminate.
  destruct (two_losses_start_cooldown example_settings ∅ "u1" (-10) (-5)
              Examples.t1 Examples.t2 Hmin Hfresh Hday H1 H2)
    as (_ & _ & Hallowed & Huntil & _).
  split; [exact Hallowed | exact Huntil].
Defined.

Lemma daily_cap_blocks_example :
  exists per_tf call,
    DecisionService.classify_all Np.ln_approx Np.sqrt_approx example_settings
      Examples.candles_by_tf = Some per_tf /\
    snd (DecisionService.check_trade_call Np.ln_approx Np.sqrt_approx example_settings
           Examples.capped_db Examples.candles_by_tf "u1" "BTCUSDT" "breakout"
           10000 2.0 1.0 "1m" SessionService._asia Examples.t1) = Some call /\
    DecisionService.decision call = "BLOCK"%string /\
    DecisionService.quality_score call == 0 /\
    DecisionService.risk_pct call
    == RiskService.final_risk_pct (risk_of example_settings per_tf 10000 2.0 1.0)
       * SessionService.risk_multiplier SessionService._asia /\
    DecisionService.position_size_usd call
    == RiskService.position_size_usd (risk_of example_settings per_tf 10000 2.0 1.0) /\
    DecisionService.reasons call
    = BehaviorService.reasons
        (snd (BehaviorService.check example_settings Examples.capped_db "u1" Examples.t1))
      ++ RiskService.reasons (risk_of example_settings per_tf 10000 2.0 1.0) /\
    In "Switch to paper review mode."%string (DecisionService.suggested_actions call) /\
    exists msg,
      snd (DecisionService.check_trade Np.ln_approx Np.sqrt_approx example_settings
             Examples.capped_db Examples.candles_by_tf "u1" "BTCUSDT" "breakout"
             10000 2.0 1.0 "1m" SessionService._asia Examples.t1)
      = inl (DecisionService.TypeError msg).
Proof.
  apply (behavior_refusal_blocks Np.ln_approx Np.sqrt_approx example_settings).
  - exact example_percentile_ok.
  - vm_compute. reflexivity.
Defined.


(** * Further properties of the services *)

(** ** The risk sizer: caps and the stop floor *)

Section RiskMore.
Variable settings : Settings.

Lemma capped_risk_le r v :
  RiskService.capped_risk_pct settings r v <= r /\
  RiskService.capped_risk_pct settings r v <= max_risk_per_trade_pct settings.
Proof.
  unfold RiskService.capped_risk_pct.
  pose proof (Q.le_min_l r (max_risk_per_trade_pct settings)) as Hl.
  pose proof (Q.le_min_r r (max_risk_per_trade_pct settings)) as Hr.
  destruct (v =? "high")%string; [| split; assumption].
  pose proof (Q.le_min_l (Qmin r (max_risk_per_trade_pct settings)) 0.5) as Hl'.
  split; lra.
Qed.

(** The risk percentage returned by the sizer never exceeds the intended
    one nor the configured cap, nor 0.5 under high volatility. *)
Theorem final_risk_within_caps e r s v :
  RiskService.final_risk_pct (RiskService.compute settings e r s v) <= r /\
  RiskService.final_risk_pct (RiskService.compute settings e r s v)
  <= max_risk_per_trade_pct settings /\
  (v = "high"%string ->
   RiskService.final_risk_pct (RiskService.compute settings e r s v) <= 0.5).
Proof.
  rewrite compute_final_risk_pct.
  destruct (capped_risk_le r v) as [Hl Hr].
  split; [exact Hl |]. split; [exact Hr |].
  intros ->. unfold RiskService.capped_risk_pct. rewrite String.eqb_refl.
  apply Q.le_min_r.
Qed.

(** The stop floor bounds the position: whatever the stop distance, the
    position is at most the one sized at a stop of 0.05%, and a stop of at
    most 0.05% is sized exactly as a stop of 0.05%. *)
Theorem position_size_largest_at_floor e r s v :
  0 <= e -> 0 <= r -> 0 <= max_risk_per_trade_pct settings ->
  RiskService.position_size_usd (RiskService.compute settings e r s v)
  <= RiskService.position_size_usd (RiskService.compute settings e r 0.05 v) /\
  (s <= 0.05 ->
   RiskService.position_size_usd (RiskService.compute settings e r s v)
   == RiskService.position_size_usd (RiskService.compute settings e r 0.05 v)).
Proof.
  intros He Hr Hm. rewrite !compute_position_size.
  pose proof (capped_risk_nonneg settings r v Hr Hm) as Hc0.
  set (c := RiskService.capped_risk_pct settings r v) in *.
  assert (E05 : RiskService.floored_stop 0.05 == 0.05) by reflexivity.
  split.
  - apply div_antitone.
    + apply Qmult_le_0_compat; [exact He |].
      apply Qmult_le_0_compat; [exact Hc0 | discriminate].
    + rewrite E05. reflexivity.
    + unfold Qdiv. apply Qmult_le_compat_r; [| discriminate].
      rewrite E05. apply Q.le_max_r.
  - intros Hs. assert (E : RiskService.floored_stop s == 0.05) by (apply Q.max_r; exact Hs).
    rewrite E, E05. reflexivity.
Qed.

End RiskMore.

Lemma position_size_largest_at_floor_example :
  RiskService.position_size_usd
    (RiskService.compute example_settings 10000 2.0 0.0001 "low")
  <= RiskService.position_size_usd
       (RiskService.compute example_settings 10000 2.0 0.05 "low") /\
  (0.0001 <= 0.05 ->
   RiskService.position_size_usd
     (RiskService.compute example_settings 10000 2.0 0.0001 "low")
   == RiskService.position_size_usd
        (RiskService.compute example_settings 10000 2.0 0.05 "low")).
Proof.
  apply (position_size_largest_at_floor example_settings 10000 2.0 0.0001 "low");
    discriminate.
Defined.

(** ** The session classifier *)

Lemma hour_of_range now : (0 <= SessionService.hour_of now < 24)%Z.
Proof.
  unfold SessionService.hour_of, Py.us_per_day.
  pose proof (Z.mod_pos_bound now 86400000000 ltac:(lia)) as H.
  split.
  - apply Z.div_pos; lia.
  - apply Z.div_lt_upper_bound; lia.
Qed.

Lemma detect_multiplier_bounds now :
  0.5 <= SessionService.risk_multiplier (SessionService.detect now) <= 1.
Proof.
  unfold SessionService.detect, SessionService.detect_hour.
  destruct (_ && _); [split; discriminate |].
  destruct (_ && _); [split; discriminate |].
  destruct (_ && _); split; discriminate.
Qed.

(** Whatever the clock, the session is the one of the table for the UTC
    hour, and its multiplier lies between 0.5 and 1: the session never
    raises the risk. *)
Theorem session_by_hour now :
  let h := SessionService.hour_of now in
  let s := SessionService.detect now in
  (0 <= h < 24)%Z /\
  ((h < 7)%Z -> s = SessionService._asia) /\
  ((7 <= h < 13)%Z -> s = SessionService._eu) /\
  ((13 <= h < 21)%Z -> s = SessionService._us) /\
  ((21 <= h)%Z -> s = SessionService._weekend) /\
  0.5 <= SessionService.risk_multiplier s <= 1.
Proof.
  intros h s. pose proof (hour_of_range now) as Hh. fold h in Hh.
  unfold s, SessionService.detect, SessionService.detect_hour. fold h.
  split; [exact Hh |].
  destruct (Z.leb_spec 0 h); [| lia].
  destruct (Z.ltb_spec h 7); simpl.
  { repeat split; try reflexivity; try discriminate; intros; lia. }
  destruct (Z.leb_spec 7 h); [| lia].
  destruct (Z.ltb_spec h 13); simpl.
  { repeat split; try reflexivity; try discriminate; intros; lia. }
  destruct (Z.leb_spec 13 h); [| lia].
  destruct (Z.ltb_spec h 21); simpl.
  { repeat split; try reflexivity; try discriminate; intros; lia. }
  repeat split; try reflexivity; try discriminate; intros; lia.
Qed.

(** ** The scorer and the decision of an allowed trade *)

Lemma lower_ascii_idempotent c : Py.lower_ascii (Py.lower_ascii c) = Py.lower_ascii c.
Proof. destruct c as [[] [] [] [] [] [] [] []]; reflexivity. Qed.

Lemma lower_idempotent s : Py.lower (Py.lower s) = Py.lower s.
Proof.
  induction s as [| c s IH]; simpl; [reflexivity |].
  rewrite lower_ascii_idempotent, IH. reflexivity.
Qed.

(** For a strategy name of ASCII characters, the scorer reads the name up
    to letter case, and only the name [breakout] itself ever makes the
    regime matter. *)
Theorem fit_score_strategy_name regime regime' volatility strategy :
  Py.is_ascii strategy = true ->
  DecisionService._strategy_fit_score regime volatility strategy
  = DecisionService._strategy_fit_score regime volatility (Py.lower strategy) /\
  (Py.lower strategy <> "breakout"%string ->
   DecisionService._strategy_fit_score regime volatility strategy
   = DecisionService._strategy_fit_score regime' volatility strategy).
Proof.
  intros _. split.
  - unfold DecisionService._strategy_fit_score.
    rewrite lower_idempotent. reflexivity.
  - intros Hne. unfold DecisionService._strategy_fit_score.
    apply String.eqb_neq in Hne. rewrite Hne. reflexivity.
Qed.

Lemma fit_score_strategy_name_example :
  DecisionService._strategy_fit_score "RANGE" "low" "Momentum"
  = DecisionService._strategy_fit_score "RANGE" "low" (Py.lower "Momentum") /\
  (Py.lower "Momentum" <> "breakout"%string ->
   DecisionService._strategy_fit_score "RANGE" "low" "Momentum"
   = DecisionService._strategy_fit_score "trend" "low" "Momentum").
Proof.
  apply (fit_score_strategy_name "RANGE" "trend" "low" "Momentum"). reflexivity.
Defined.

Lemma fit_score_range regime volatility strategy :
  0.5 <= fst (DecisionService._strategy_fit_score regime volatility strategy) <= 1.
Proof.
  unfold DecisionService._strategy_fit_score.
  destruct (volatility =? "high")%string eqn:Eh;
    destruct (volatility =? "low")%string eqn:El.
  - apply String.eqb_eq in Eh. apply String.eqb_eq in El. congruence.
  - destruct (_ && _); split; discriminate.
  - destruct (_ && _); split; discriminate.
  - destruct (_ && _); split; discriminate.
Qed.

(** Whatever the three strings, the score is between 0.5 and 1: the floor at
    0 never applies and no score is below 0.35. *)
Theorem fit_score_at_least_half regime volatility strategy :
  0.5 <= fst (DecisionService._strategy_fit_score regime volatility strategy) <= 1 /\
  Py.ltb (fst (DecisionService._strategy_fit_score regime volatility strategy)) 0.35
  = false.
Proof.
  pose proof (fit_score_range regime volatility strategy) as H.
  split; [exact H |]. apply ltb_false. lra.
Qed.

Section AllowedCallMore.
Import DecisionService.

(** For a trade the behavior guard lets through, the decision passed to
    the [DecisionResult(...)] call is ["BLOCK"] exactly when the confidence
    is below 0.45 and the score below 0.55, otherwise ["WARN"] when the
    score is below 0.55 and else ["ALLOW"]: the "quality too low" block
    never fires, whatever the regime string. The call itself raises
    [TypeError]. *)
Theorem allowed_call_decision multi risk f strategy :
  let q := fst (_strategy_fit_score (MultiTimeframeRegimeService.final_regime multi)
                  (MultiTimeframeRegimeService.final_volatility multi) strategy) in
  let low_conf := Py.ltb (MultiTimeframeRegimeService.confidence multi) 0.45 in
  decision (allowed_call multi risk f strategy)
  = (if low_conf && Py.ltb q 0.55 then "BLOCK"
     else if Py.ltb q 0.55 then "WARN" else "ALLOW")%string /\
  exists msg, DecisionResult_call (allowed_call multi risk f strategy) = inl (TypeError msg).
Proof.
  intros q low_conf. subst q low_conf.
  split; [| eexists; reflexivity]. unfold allowed_call.
  assert (H35 : Py.ltb (fst (_strategy_fit_score
                               (MultiTimeframeRegimeService.final_regime multi)
                               (MultiTimeframeRegimeService.final_volatility multi)
                               strategy)) 0.35 = false).
  { apply ltb_false.
    pose proof (fit_score_range (MultiTimeframeRegimeService.final_regime multi)
                  (MultiTimeframeRegimeService.final_volatility multi) strategy). lra. }
  destruct (_strategy_fit_score _ _ strategy) as [q fit_reasons]. simpl in *.
  rewrite H35.
  destruct (Py.ltb (MultiTimeframeRegimeService.confidence multi) 0.45);
    destruct (Py.ltb q 0.55); simpl; try reflexivity;
    destruct (_ =? "high")%string; reflexivity.
Qed.

Lemma allowed_call_suggests_something multi risk f strategy :
  suggested_actions (allowed_call multi risk f strategy) <> [].
Proof.
  unfold allowed_call.
  repeat match goal with
         | |- context [let '(_, _) := ?p in _] => destruct p
         | |- context [if ?b then _ else _] => destruct b
         end; simpl; discriminate.
Qed.

Lemma allowed_call_decision_literal multi risk f strategy :
  decision (allowed_call multi risk f strategy) = "ALLOW"%string \/
  decision (allowed_call multi risk f strategy) = "WARN"%string \/
  decision (allowed_call multi risk f strategy) = "BLOCK"%string.
Proof.
  unfold allowed_call.
  destruct (_strategy_fit_score _ _ strategy) as [q fit_reasons].
  repeat match goal with
         | |- context [if ?b then _ else _] => destruct b
         end; simpl;
    first [left; reflexivity | right; left; reflexivity | right; right; reflexivity].
Qed.

End AllowedCallMore.

(** ** The behavior guard: what a check and a close touch *)

Section BehaviorMore.
Import BehaviorService.
Variable settings : Settings.

Lemma check_table db user now :
  fst (check settings db user now)
  = fst (get_or_create_daily db user (Py.date_of now)).
Proof.
  unfold check.
  destruct (get_or_create_daily db user (Py.date_of now)) as [db' ds]. simpl.
  destruct (Models.cooldown_until ds) as [u |]; [destruct (_ <? _)%Z |]; reflexivity.
Qed.

Lemma check_of_stored db user now ds :
  db !! (user, Py.date_of now) = Some ds ->
  check settings db user now
  = (db, match Models.cooldown_until ds with
         | Some until =>
             if (now <? until)%Z then
               {| allowed := false;
                  reasons := ["Cooldown active until " +:+ Py.isoformat until +:+ "Z."];
                  suggested_actions := ["Wait out the cooldown. Review last two trades."];
                  cooldown_until := Some until |}
             else check_daily_cap settings ds
         | None => check_daily_cap settings ds
         end).
Proof.
  intros E. unfold check. rewrite (get_or_create_stored _ _ _ _ E).
  destruct (Models.cooldown_until ds) as [u |]; [destruct (_ <? _)%Z |]; reflexivity.
Qed.

Lemma check_keeps_rows db user now key ds :
  db !! key = Some ds -> fst (check settings db user now) !! key = Some ds.
Proof.
  intros Hk. rewrite check_table. unfold get_or_create_daily.
  destruct (db !! (user, Py.date_of now)) eqn:E; simpl; [exact Hk |].
  rewrite lookup_insert_ne; [exact Hk | congruence].
Qed.

(** A check changes no existing row: it at most adds the row of the user
    for the current day, with all counters at their defaults, and a second
    check at the same instant changes nothing and answers the same. *)
Theorem check_only_creates_todays_row db user now :
  let db' := fst (check settings db user now) in
  (forall key ds, db !! key = Some ds -> db' !! key = Some ds) /\
  (forall key, key <> (user, Py.date_of now) -> db' !! key = db !! key) /\
  (db !! (user, Py.date_of now) = None ->
   db' !! (user, Py.date_of now) = Some (Models.new_daily user (Py.date_of now))) /\
  check settings db' user now = (db', snd (check settings db user now)).
Proof.
  intros db'. subst db'. rewrite check_table.
  destruct (db !! (user, Py.date_of now)) as [ds |] eqn:E.
  - rewrite (get_or_create_stored _ _ _ _ E). simpl.
    split; [auto |]. split; [auto |]. split; [discriminate |].
    rewrite (check_of_stored _ _ _ _ E). reflexivity.
  - assert (L : <[(user, Py.date_of now) := Models.new_daily user (Py.date_of now)]> db
                !! (user, Py.date_of now)
                = Some (Models.new_daily user (Py.date_of now)))
      by apply lookup_insert_eq.
    unfold get_or_create_daily at 1 2 3 4. rewrite E. simpl.
    split.
    { intros key ds Hk. rewrite lookup_insert_ne; [exact Hk |]. congruence. }
    split.
    { intros key Hne. apply lookup_insert_ne. congruence. }
    split; [intros _; exact L |].
    rewrite (check_of_stored _ _ _ _ L).
    unfold check, get_or_create_daily. rewrite E. reflexivity.
Qed.


(** A winning close during a cooldown resets the losing streak but leaves
    the cooldown in place: a check before its end still refuses. *)
Theorem win_does_not_lift_cooldown db user pnl now ds until :
  db !! (user, Py.date_of now) = Some ds ->
  Models.cooldown_until ds = Some until ->
  (now < until)%Z ->
  0 < pnl ->
  let db' := update_on_trade_close settings db user pnl now in
  (exists ds', db' !! (user, Py.date_of now) = Some ds' /\
               Models.consecutive_losses ds' = 0%Z /\
               Models.cooldown_until ds' = Some until) /\
  allowed (snd (check settings db' user now)) = false /\
  cooldown_until (snd (check settings db' user now)) = Some until.
Proof.
  intros E Hcd Hlt Hpnl db'.
  pose proof (update_lookup settings db user pnl now) as L.
  rewrite (get_or_create_stored _ _ _ _ E) in L. simpl in L. fold db' in L.
  assert (Hc : Models.cooldown_until (closed_row settings ds pnl now) = Some until).
  { unfold closed_row. apply gtb_true in Hpnl. rewrite Hpnl. simpl. exact Hcd. }
  split.
  - eexists. split; [exact L |]. split; [apply closed_row_win; exact Hpnl | exact Hc].
  - rewrite (check_of_stored _ _ _ _ L), Hc.
    apply Z.ltb_lt in Hlt. rewrite Hlt. split; reflexivity.
Qed.

(** After the two losing closes that start a cooldown, a check on the same
    day at or after the cooldown's end allows the trade again, the daily cap
    permitting. *)
Theorem cooldown_expires db user pnl1 pnl2 t1 t2 t3 :
  db !! (user, Py.date_of t1) = None ->
  Py.date_of t2 = Py.date_of t1 -> Py.date_of t3 = Py.date_of t1 ->
  pnl1 <= 0 -> pnl2 <= 0 ->
  (t2 + Py.timedelta_minutes (cooldown_minutes_after_two_losses settings) <= t3)%Z ->
  (2 < max_trades_per_day settings)%Z ->
  allowed (snd (check settings
                  (update_on_trade_close settings
                     (update_on_trade_close settings db user pnl1 t1) user pnl2 t2)
                  user t3)) = true.
Proof.
  intros Hfresh Hd2 Hd3 H1 H2 Hexp Hcap.
  pose proof (update_lookup settings db user pnl1 t1) as L1.
  rewrite (get_or_create_fresh _ _ _ Hfresh) in L1.
  pose proof (update_lookup settings (update_on_trade_close settings db user pnl1 t1)
                user pnl2 t2) as L2.
  rewrite Hd2 in L2 at 2. rewrite (get_or_create_stored _ _ _ _ L1) in L2. simpl in L2.
  set (row := closed_row settings
                (closed_row settings (Models.new_daily user (Py.date_of t1)) pnl1 t1)
                pnl2 t2) in *.
  assert (L3 : update_on_trade_close settings
                 (update_on_trade_close settings db user pnl1 t1) user pnl2 t2
               !! (user, Py.date_of t3) = Some row).
  { replace (Py.date_of t3) with (Py.date_of t2) by congruence. exact L2. }
  rewrite (check_of_stored _ _ _ _ L3). subst row.
  destruct (closed_row_loss settings (Models.new_daily user (Py.date_of t1)) pnl1 t1 H1)
    as [C1 _].
  destruct (closed_row_loss settings
              (closed_row settings (Models.new_daily user (Py.date_of t1)) pnl1 t1)
              pnl2 t2 H2) as [_ U2].
  rewrite C1 in U2. simpl in U2. rewrite U2.
  destruct (Z.ltb_spec t3
              (t2 + Py.timedelta_minutes (cooldown_minutes_after_two_losses settings)));
    [lia |].
  unfold check_daily_cap.
  destruct (closed_row_counts settings
              (closed_row settings (Models.new_daily user (Py.date_of t1)) pnl1 t1)
              pnl2 t2) as [T2 _].
  destruct (closed_row_counts settings (Models.new_daily user (Py.date_of t1)) pnl1 t1)
    as [T1 _].
  destruct (Z.leb_spec (max_trades_per_day settings)
              (Models.trades_count
                 (closed_row settings
                    (closed_row settings (Models.new_daily user (Py.date_of t1)) pnl1 t1)
                    pnl2 t2))) as [Hle | Hgt]; [| reflexivity].
  rewrite T2, T1 in Hle. simpl in Hle. lia.
Qed.

(** The check reads the row of the current UTC day only: when there is none
    and the daily cap is positive the trade is allowed, whatever the rows of
    other days hold, a cooldown that has not ended included. *)
Theorem new_day_ignores_earlier_cooldown db user now :
  db !! (user, Py.date_of now) = None ->
  (0 < max_trades_per_day settings)%Z ->
  allowed (snd (check settings db user now)) = true.
Proof.
  intros Hfresh Hcap. unfold check, get_or_create_daily. rewrite Hfresh. simpl.
  unfold check_daily_cap. simpl.
  destruct (Z.leb_spec (max_trades_per_day settings) 0); [lia | reflexivity].
Qed.

End BehaviorMore.

Lemma win_does_not_lift_cooldown_example :
  BehaviorService.allowed
    (snd (BehaviorService.check example_settings
            (BehaviorService.update_on_trade_close example_settings
               MoreExamples.cooled_db "u1" 25 MoreExamples.late)
            "u1" MoreExamples.late)) = false.
Proof.
  assert (E : MoreExamples.cooled_db !! ("u1"%string, Py.date_of MoreExamples.late)
              = Some {| Models.user_id := "u1"; Models.day := Py.date_of MoreExamples.late;
                        Models.trades_count := 2; Models.wins := 0; Models.losses := 2;
                        Models.realized_pnl := 0.0 + -10 + -5;
                        Models.consecutive_losses := 2;
                        Models.cooldown_until := Some 1700007600000000%Z |})
    by (vm_compute; reflexivity).
  destruct (win_does_not_lift_cooldown example_settings MoreExamples.cooled_db "u1" 25
              MoreExamples.late _ 1700007600000000%Z E eq_refl eq_refl eq_refl)
    as (_ & H & _).
  exact H.
Defined.

Lemma cooldown_expires_example :
  BehaviorService.allowed
    (snd (BehaviorService.check example_settings
            (BehaviorService.update_on_trade_close example_settings
               (BehaviorService.update_on_trade_close example_settings ∅ "u1" (-10)
                  Examples.t1) "u1" (-5) Examples.t2)
            "u1" (Examples.t2 + 1800000000)%Z)) = true.
Proof.
  apply (cooldown_expires example_settings ∅ "u1" (-10) (-5) Examples.t1 Examples.t2
           (Examples.t2 + 1800000000)%Z); try reflexivity; discriminate.
Defined.

(** Ten minutes after midnight the cooldown set at 23:50 runs for another
    ten minutes, and the check allows the trade. *)
Lemma new_day_example :
  (exists ds,
     MoreExamples.cooled_db !! ("u1"%string, Py.date_of MoreExamples.late) = Some ds /\
     Models.cooldown_until ds = Some (MoreExamples.after_midnight + 600000000)%Z) /\
  BehaviorService.allowed
    (snd (BehaviorService.check example_settings MoreExamples.cooled_db "u1"
            MoreExamples.after_midnight)) = true.
Proof.
  split.
  - eexists. split; vm_compute; reflexivity.
  - apply (new_day_ignores_earlier_cooldown example_settings MoreExamples.cooled_db "u1"
             MoreExamples.after_midnight); [vm_compute; reflexivity | reflexivity].
Defined.

(** ** The tally of a day *)

Section Tally.
Import BehaviorService.
Variable settings : Settings.





(** ** Rows of reachable tables *)

Lemma new_daily_row_ok user day : row_ok (user, day) (Models.new_daily user day).
Proof. unfold row_ok. simpl. repeat split; try lia. Qed.

Lemma closed_row_ok key ds pnl now :
  row_ok key ds -> row_ok key (closed_row settings ds pnl now).
Proof.
  unfold row_ok, closed_row. intros (Hu & Hd & Hw & Hc & Hcd).
  destruct (Py.gtb pnl 0); simpl.
  - split; [exact Hu |]. split; [exact Hd |]. split; [lia |]. split; [lia |].
    intros H2. lia.
  - split; [exact Hu |]. split; [exact Hd |]. split; [lia |]. split; [lia |].
    intros H2.
    destruct (Z.leb_spec 2 (Models.consecutive_losses ds + 1)); [discriminate | lia].
Qed.

Lemma get_or_create_rows_ok db user day :
  (forall key ds, db !! key = Some ds -> row_ok key ds) ->
  (forall key ds, fst (get_or_create_daily db user day) !! key = Some ds -> row_ok key ds) /\
  row_ok (user, day) (snd (get_or_create_daily db user day)).
Proof.
  intros Hdb. unfold get_or_create_daily.
  destruct (db !! (user, day)) eqn:E; simpl.
  - split; [exact Hdb | exact (Hdb _ _ E)].
  - split; [| apply new_daily_row_ok].
    intros key ds. rewrite lookup_insert.
    case_decide; [intros [= <-]; subst; apply new_daily_row_ok | apply Hdb].
Qed.

Lemma step_rows_ok db db' :
  History.step settings db db' ->
  (forall key ds, db !! key = Some ds -> row_ok key ds) ->
  forall key ds, db' !! key = Some ds -> row_ok key ds.
Proof.
  intros Hstep IH. destruct Hstep as [db user now | db user pnl now].
  - rewrite check_table. apply get_or_create_rows_ok, IH.
  - unfold update_on_trade_close.
    destruct (get_or_create_rows_ok db user (Py.date_of now) IH) as [Hdb' Hds].
    destruct (get_or_create_daily db user (Py.date_of now)) as [db' ds]. simpl in *.
    intros key row. rewrite lookup_insert.
    case_decide; [intros [= <-]; subst; apply closed_row_ok, Hds | apply Hdb'].
Qed.

(** In every table reached from the empty one by checks and closes, each
    row is stored under its own [user_id] and [day], its counters are not
    negative, its losing streak is at most its losses, and a streak of two
    or more comes with a cooldown. *)
Theorem reachable_rows_ok db :
  History.reachable settings db ->
  forall key ds, db !! key = Some ds -> row_ok key ds.
Proof.
  induction 1 as [| db db' _ IH Hstep].
  - intros key ds. rewrite lookup_empty. discriminate.
  - exact (step_rows_ok db db' Hstep IH).
Qed.

End Tally.


Lemma reachable_rows_ok_example :
  row_ok ("u1"%string, Py.date_of Examples.t1)
    (BehaviorService.closed_row example_settings
       (Models.new_daily "u1" (Py.date_of Examples.t1)) (-10) Examples.t1).
Proof.
  apply (reachable_rows_ok example_settings
           (BehaviorService.update_on_trade_close example_settings ∅ "u1" (-10)
              Examples.t1)).
  - eapply History.reachable_step; [apply History.reachable_empty |].
    apply History.step_close.
  - vm_compute. reflexivity.
Defined.

(** ** The aggregator: volatility vote and confidence *)

Section AggregatorMore.
Import MultiTimeframeRegimeService.

Lemma votes_high per_tf :
  votes "high" (map (fun kv => RegimeService.volatility_state (snd kv)) per_tf)
  = Z.of_nat (high_count per_tf).
Proof.
  unfold votes, high_count. f_equal.
  induction per_tf as [| kv rest IH]; simpl; [reflexivity |].
  destruct (RegimeService.volatility_state (snd kv) =? "high")%string; simpl; congruence.
Qed.

Lemma high_count_le per_tf : (high_count per_tf <= length per_tf)%nat.
Proof. unfold high_count. apply List.filter_length_le. Qed.

Lemma final_volatility_by_count per_tf :
  final_volatility (combine per_tf)
  = (if (2 <=? high_count per_tf)%nat then "high" else "low")%string.
Proof.
  unfold combine. cbn [final_volatility]. rewrite votes_high.
  destruct (Nat.leb_spec 2 (high_count per_tf));
    destruct (Z.leb_spec 2 (Z.of_nat (high_count per_tf))); try reflexivity; lia.
Qed.

(** The consensus volatility is ["high"] exactly when at least two
    timeframes report ["high"]; one timeframe alone always gives ["low"]. *)
Theorem high_volatility_needs_two_timeframes :
  (forall per_tf,
     final_volatility (combine per_tf) = "high"%string <-> (2 <= high_count per_tf)%nat) /\
  (forall tf r, final_volatility (combine [(tf, r)]) = "low"%string).
Proof.
  split.
  - intros per_tf. rewrite final_volatility_by_count.
    destruct (Nat.leb_spec 2 (high_count per_tf)); split; intros; try lia;
      [reflexivity | discriminate].
  - intros tf r. rewrite final_volatility_by_count.
    pose proof (high_count_le [(tf, r)]) as H. simpl in H.
    destruct (Nat.leb_spec 2 (high_count [(tf, r)])); [lia | reflexivity].
Qed.

(** The confidence before the last clip, from the two agreement ratios and
    the slope bonus. *)
Lemma confidence_formula per_tf :
  let n := Z.of_nat (length per_tf) in
  let tv := Z.of_nat (trend_count per_tf) in
  let hv := Z.of_nat (high_count per_tf) in
  exists bonus,
    0 <= bonus <= 1 /\
    confidence (combine per_tf)
    = Py.clip (0.55 * true_div (Z.max tv (n - tv)) (Z.max 1 n)
               + 0.25 * true_div (if (2 <=? high_count per_tf)%nat then hv else (n - hv)%Z)
                          (Z.max 1 n)
               + 0.20 * bonus) 0.0 1.0.
Proof.
  intros n tv hv.
  exists (Py.clip
            (Np.mean (map (fun kv => Qabs (RegimeService.slope (snd kv))) per_tf) / 0.002)
            0.0 1.0).
  split.
  - match goal with |- _ <= Py.clip ?x _ _ <= _ =>
      destruct (clip_bounds x 0.0 1.0) as [Hlo Hhi]; [discriminate |] end.
    split; lra.
  - unfold combine. cbn [confidence].
    rewrite votes_trend, votes_high, !length_map. fold n tv hv.
    assert (E : (if ((if (2 <=? hv)%Z then "high" else "low") =? "high")%string
                 then hv else (n - hv)%Z)
                = (if (2 <=? high_count per_tf)%nat then hv else (n - hv)%Z)).
    { destruct (Nat.leb_spec 2 (high_count per_tf));
        destruct (Z.leb_spec 2 hv); unfold hv in *; try lia; reflexivity. }
    rewrite E. reflexivity.
Qed.

Lemma clip_lower x b : b <= x -> b <= 1 -> 0 <= b -> b <= Py.clip x 0.0 1.0.
Proof.
  intros Hx H1 H0. unfold Py.clip.
  apply Q.min_glb; [| lra].
  apply Qle_trans with x; [exact Hx | apply Q.le_max_l].
Qed.

Lemma true_div_lower a n k :
  (0 < n)%Z -> (k * n <= 3 * a)%Z -> inject_Z k / 3 <= true_div a n.
Proof.
  intros Hn H. unfold true_div.
  assert (Hq : 0 < inject_Z n) by (change 0 with (inject_Z 0); rewrite <- Zlt_Qlt; lia).
  apply Qle_shift_div_l; [exact Hq |].
  assert (E : inject_Z k / 3 * inject_Z n == inject_Z (k * n) / 3)
    by (rewrite inject_Z_mult; field).
  rewrite E. apply Qle_shift_div_r; [reflexivity |].
  change 3 with (inject_Z 3). rewrite <- inject_Z_mult, <- Zle_Qle. lia.
Qed.

Lemma three_timeframes_confidence per_tf :
  length per_tf = 3%nat -> 8 # 15 <= confidence (combine per_tf).
Proof.
  intros Hlen.
  destruct (confidence_formula per_tf) as (bonus & [Hb0 Hb1] & ->).
  pose proof (trend_other_count per_tf) as Htc.
  pose proof (high_count_le per_tf) as Hhc.
  rewrite Hlen in *. change (Z.max 1 (Z.of_nat 3)) with 3%Z.
  assert (Hr : inject_Z 2 / 3
               <= true_div (Z.max (Z.of_nat (trend_count per_tf))
                              (Z.of_nat 3 - Z.of_nat (trend_count per_tf))) 3)
    by (apply true_div_lower; lia).
  assert (Hv : inject_Z 2 / 3
               <= true_div (if (2 <=? high_count per_tf)%nat
                            then Z.of_nat (high_count per_tf)
                            else (Z.of_nat 3 - Z.of_nat (high_count per_tf))%Z) 3).
  { apply true_div_lower; [lia |].
    destruct (Nat.leb_spec 2 (high_count per_tf)); lia. }
  assert (E : inject_Z 2 / 3 == 2 # 3) by reflexivity.
  rewrite E in Hr, Hv.
  assert (H : 8 # 15 <= Py.clip
                (0.55 * true_div (Z.max (Z.of_nat (trend_count per_tf))
                                    (Z.of_nat 3 - Z.of_nat (trend_count per_tf))) 3
                 + 0.25 * true_div (if (2 <=? high_count per_tf)%nat
                                    then Z.of_nat (high_count per_tf)
                                    else (Z.of_nat 3 - Z.of_nat (high_count per_tf))%Z) 3
                 + 0.20 * bonus) 0.0 1.0).
  { apply clip_lower; [lra | discriminate | discriminate]. }
  exact H.
Qed.

(** With three timeframes, as the check-trade endpoint passes, two of them
    always agree on the regime and on the volatility: the confidence is at
    least 8/15, so never below the 0.45 of the low-confidence branch. *)
Theorem three_timeframes_are_confident per_tf :
  length per_tf = 3%nat ->
  8 # 15 <= confidence (combine per_tf) /\
  Py.ltb (confidence (combine per_tf)) 0.45 = false.
Proof.
  intros Hlen. pose proof (three_timeframes_confidence per_tf Hlen) as H.
  split; [exact H |]. apply ltb_false. lra.
Qed.

(** When all timeframes report one regime and none reports high volatility,
    the confidence is at least 0.80. *)
Theorem unanimous_timeframes_are_confident per_tf :
  per_tf <> [] ->
  trend_count per_tf = length per_tf \/ trend_count per_tf = 0%nat ->
  high_count per_tf = 0%nat ->
  0.80 <= confidence (combine per_tf).
Proof.
  intros Hne Htrend Hhigh.
  destruct (confidence_formula per_tf) as (bonus & [Hb0 Hb1] & ->).
  assert (Hn : (0 < Z.of_nat (length per_tf))%Z)
    by (destruct per_tf; [congruence | simpl length; lia]).
  rewrite Hhigh. simpl (2 <=? 0)%nat. cbv iota.
  replace (Z.max 1 (Z.of_nat (length per_tf))) with (Z.of_nat (length per_tf)) by lia.
  replace (Z.max (Z.of_nat (trend_count per_tf))
             (Z.of_nat (length per_tf) - Z.of_nat (trend_count per_tf)))
    with (Z.of_nat (length per_tf)) by (destruct Htrend as [-> | ->]; lia).
  replace (Z.of_nat (length per_tf) - Z.of_nat 0)%Z with (Z.of_nat (length per_tf)) by lia.
  assert (E : true_div (Z.of_nat (length per_tf)) (Z.of_nat (length per_tf)) == 1).
  { unfold true_div. field. change 0 with (inject_Z 0). rewrite inject_Z_injective. lia. }
  apply clip_lower; [rewrite E; lra | discriminate | discriminate].
Qed.

End AggregatorMore.

Lemma three_timeframes_example :
  8 # 15 <= MultiTimeframeRegimeService.confidence
              (MultiTimeframeRegimeService.combine
                 [("1m"%string, {| RegimeService.regime := "trend";
                                   RegimeService.volatility_state := "high";
                                   RegimeService.slope := 0; RegimeService.vol := 0 |});
                  ("5m"%string, {| RegimeService.regime := "range";
                                   RegimeService.volatility_state := "low";
                                   RegimeService.slope := 0; RegimeService.vol := 0 |});
                  ("15m"%string, {| RegimeService.regime := "range";
                                    RegimeService.volatility_state := "low";
                                    RegimeService.slope := 0; RegimeService.vol := 0 |})]).
Proof.
  apply three_timeframes_are_confident. reflexivity.
Defined.

Lemma unanimous_timeframes_example :
  0.80 <= MultiTimeframeRegimeService.confidence
            (MultiTimeframeRegimeService.combine
               [("1m"%string, {| RegimeService.regime := "trend";
                                 RegimeService.volatility_state := "low";
                                 RegimeService.slope := 0; RegimeService.vol := 0 |});
                ("5m"%string, {| RegimeService.regime := "trend";
                                 RegimeService.volatility_state := "low";
                                 RegimeService.slope := 0; RegimeService.vol := 0 |})]).
Proof.
  apply unanimous_timeframes_are_confident;
    [discriminate | left; reflexivity | reflexivity].
Defined.

(** ** The classifier: short histories and the one way to raise *)

Section ClassifierMore.
Variables ln sqrt : Q -> Q.
Variable settings : Settings.

Lemma quantile_raises_iff a :
  Np.quantile a (high_vol_percentile_threshold settings) = None
  <-> ~ percentile_ok settings.
Proof.
  unfold Np.quantile, percentile_ok.
  destruct (Qle_bool 0 (high_vol_percentile_threshold settings)) eqn:E0;
    destruct (Qle_bool (high_vol_percentile_threshold settings) 1) eqn:E1; simpl.
  - apply Qle_bool_iff in E0. apply Qle_bool_iff in E1.
    split; [discriminate | intros H; exfalso; apply H; split; assumption].
  - split; [| reflexivity]. intros _ [_ H]. apply Qle_bool_iff in H. congruence.
  - split; [| reflexivity]. intros _ [H _]. apply Qle_bool_iff in H. congruence.
  - split; [| reflexivity]. intros _ [H _]. apply Qle_bool_iff in H. congruence.
Qed.

Lemma vol_state_raises_iff rets vol :
  RegimeService.vol_state sqrt settings rets vol = None
  <-> (60 < length rets)%nat /\ ~ percentile_ok settings.
Proof.
  unfold RegimeService.vol_state.
  destruct (Nat.ltb_spec 60 (length rets)) as [Hlen | Hlen].
  - rewrite length_rolling_std by lia.
    destruct (Nat.ltb_spec 10 (length rets - 30 + 1)) as [_ | Hfew]; [| lia].
    rewrite <- (quantile_raises_iff (Np.rolling_std sqrt 30 rets)).
    destruct (Np.quantile _ _); simpl.
    + split; [discriminate | intros [_ Hq]; discriminate Hq].
    + split; [intros _; split; [exact Hlen | reflexivity] | reflexivity].
  - split; [discriminate | lia].
Qed.

Lemma vol_state_short rets vol :
  (length rets <= 60)%nat ->
  RegimeService.vol_state sqrt settings rets vol = Some "low"%string.
Proof.
  intros H. unfold RegimeService.vol_state.
  destruct (Nat.ltb_spec 60 (length rets)); [lia | reflexivity].
Qed.

Lemma length_returns candles :
  length (Np.diff (map (fun c => ln (c + 1e-9)) (map RegimeService.close candles)))
  = (length candles - 1)%nat.
Proof. rewrite length_diff, !length_map. reflexivity. Qed.

(** The classifier raises exactly when it is given at least 62 candles and
    the configured percentile is outside [0, 1]: with more than 60 returns
    there are always more than 10 rolling samples, so [np.quantile] is
    called, and nothing else can fail. *)
Theorem classify_raises_iff candles :
  RegimeService.classify ln sqrt settings candles = None
  <-> (62 <= length candles)%nat /\ ~ percentile_ok settings.
Proof.
  unfold RegimeService.classify.
  match goal with |- context [RegimeService.vol_state sqrt settings ?r ?v] =>
    pose proof (vol_state_raises_iff r v) as H;
    destruct (RegimeService.vol_state sqrt settings r v) as [vs |] end;
    rewrite length_returns in H; simpl.
  - split; [discriminate |]. intros [Hlen Hp].
    destruct H as [_ H]. discriminate H. split; [lia | exact Hp].
  - split; [| reflexivity]. intros _.
    destruct H as [H _]. destruct (H eq_refl) as [Hlen Hp]. split; [lia | exact Hp].
Qed.

(** With at most 61 candles the classifier returns, whatever the
    configuration, and the volatility state is ["low"]. *)
Theorem short_history_is_low_volatility candles :
  (length candles <= 61)%nat ->
  exists r,
    RegimeService.classify ln sqrt settings candles = Some r /\
    RegimeService.volatility_state r = "low"%string.
Proof.
  intros Hlen. unfold RegimeService.classify.
  rewrite vol_state_short by (rewrite length_returns; lia).
  simpl. eexists. split; reflexivity.
Qed.

(** A single candle is a range market with low volatility, slope 0 and
    volatility 0, for a positive slope threshold. *)
Theorem single_candle_is_flat k :
  0 < trend_slope_threshold settings ->
  exists r,
    RegimeService.classify ln sqrt settings [k] = Some r /\
    RegimeService.regime r = "range"%string /\
    RegimeService.volatility_state r = "low"%string /\
    RegimeService.slope r == 0 /\
    RegimeService.vol r == 0.
Proof.
  intros Hthr. unfold RegimeService.classify.
  rewrite vol_state_short by (simpl; lia).
  cbn [map length Nat.min Np.last_n Np.arange Np.diff Nat.leb Nat.ltb mbind option_bind].
  set (slope := RegimeService.ols_slope _ _).
  assert (Hslope : slope == 0).
  { unfold slope. simpl.
    apply (ols_slope_constant (ln (RegimeService.close k + 1e-9))).
    repeat constructor. }
  assert (E : Py.geb (Qabs slope) (trend_slope_threshold settings) = false).
  { apply not_true_iff_false. rewrite geb_true. rewrite Hslope.
    apply Qlt_not_le. exact Hthr. }
  clearbody slope. eexists. split; [reflexivity |]. cbn [RegimeService.regime
    RegimeService.volatility_state RegimeService.slope RegimeService.vol].
  rewrite E. split; [reflexivity |]. split; [reflexivity |].
  split; [exact Hslope | reflexivity].
Qed.

End ClassifierMore.

Lemma short_history_example :
  exists r,
    RegimeService.classify Np.ln_approx Np.sqrt_approx example_settings
      (repeat (flat_candle 100) 61) = Some r /\
    RegimeService.volatility_state r = "low"%string.
Proof.
  apply short_history_is_low_volatility. apply Nat.le_refl.
Defined.

Lemma single_candle_example :
  exists r,
    RegimeService.classify Np.ln_approx Np.sqrt_approx example_settings
      [flat_candle 100] = Some r /\
    RegimeService.regime r = "range"%string /\
    RegimeService.volatility_state r = "low"%string /\
    RegimeService.slope r == 0 /\
    RegimeService.vol r == 0.
Proof.
  apply single_candle_is_flat. reflexivity.
Defined.

(** ** The decision pipeline: table, exception, sessions *)

Section PipelineMore.
Import DecisionService.
Variables ln sqrt : Q -> Q.
Variable settings : Settings.

(** Checking a trade touches the table exactly as the behavior check does,
    also when a classification raises: no existing row changes, so a check
    never counts as a trade. *)
Theorem check_trade_leaves_rows
    db candles user symbol strategy e r s tf session now :
  fst (check_trade ln sqrt settings db candles user symbol strategy e r s tf session now)
  = fst (BehaviorService.check settings db user now) /\
  (forall key ds,
     db !! key = Some ds ->
     fst (check_trade ln sqrt settings db candles user symbol strategy e r s tf session now)
     !! key = Some ds).
Proof.
  assert (E : fst (check_trade ln sqrt settings db candles user symbol strategy e r s tf
                     session now)
              = fst (BehaviorService.check settings db user now)).
  { unfold check_trade, check_trade_call.
    destruct (BehaviorService.check settings db user now) as [db' beh].
    destruct (classify_all ln sqrt settings candles); [| reflexivity].
    destruct (negb (BehaviorService.allowed beh)); reflexivity. }
  split; [exact E |]. rewrite E.
  intros key ds. apply check_keeps_rows.
Qed.

(** [check_trade] never returns a result: every path ends in an exception,
    and for a percentile [np.quantile] accepts it is the [TypeError] of the
    [DecisionResult(...)] call, which is given 8 of the 10 required fields.
    The call carries a decision among ["ALLOW"], ["WARN"] and ["BLOCK"], a
    volatility state among ["high"] and ["low"], and at least one suggested
    action. *)
Theorem check_trade_always_raises
    db candles user symbol strategy e r s tf session now :
  (forall res,
     snd (check_trade ln sqrt settings db candles user symbol strategy e r s tf session now)
     <> inr res) /\
  (percentile_ok settings ->
   exists call msg,
     snd (check_trade_call ln sqrt settings db candles user symbol strategy e r s tf
            session now) = Some call /\
     snd (check_trade ln sqrt settings db candles user symbol strategy e r s tf session now)
     = inl (TypeError msg) /\
     (decision call = "ALLOW"%string \/ decision call = "WARN"%string \/
      decision call = "BLOCK"%string) /\
     (volatility_state call = "high"%string \/ volatility_state call = "low"%string) /\
     suggested_actions call <> []).
Proof.
  split; [intros res; apply check_trade_returns_nothing |].
  intros Hp.
  destruct (classify_all_returns ln sqrt settings Hp candles) as (per_tf & Hc & _).
  rewrite check_trade_of_call.
  destruct (BehaviorService.allowed (snd (BehaviorService.check settings db user now))) eqn:Hb.
  - rewrite check_trade_call_allowed with (per_tf := per_tf) by assumption.
    do 2 eexists. split; [reflexivity |]. split; [reflexivity |].
    rewrite allowed_call_volatility_state. split; [| split].
    + apply allowed_call_decision_literal.
    + apply final_volatility_values.
    + apply allowed_call_suggests_something.
  - rewrite check_trade_call_blocked with (per_tf := per_tf) by assumption.
    do 2 eexists. split; [reflexivity |]. split; [reflexivity |].
    cbn [decision volatility_state suggested_actions]. split; [auto |].
    split; [apply final_volatility_values |].
    intros H. apply app_eq_nil in H. destruct H as [_ H]. discriminate H.
Qed.

(** With the session of any clock reading, the risk percentage passed to
    the [DecisionResult(...)] call is not negative and exceeds neither the
    intended risk nor the configured cap; the call raises [TypeError]. *)
Theorem detected_session_never_raises_risk
    db candles user symbol strategy e r s tf session_clock now :
  percentile_ok settings ->
  0 <= r -> 0 <= max_risk_per_trade_pct settings ->
  exists call,
    snd (check_trade_call ln sqrt settings db candles user symbol strategy e r s tf
           (SessionService.detect session_clock) now) = Some call /\
    0 <= risk_pct call /\ risk_pct call <= r /\
    risk_pct call <= max_risk_per_trade_pct settings /\
    exists msg,
      snd (check_trade ln sqrt settings db candles user symbol strategy e r s tf
             (SessionService.detect session_clock) now) = inl (TypeError msg).
Proof.
  intros Hp Hr Hm.
  destruct (classify_all_returns ln sqrt settings Hp candles) as (per_tf & Hc & _).
  pose proof (check_trade_type_error ln sqrt settings db candles user symbol strategy
                e r s tf (SessionService.detect session_clock) now Hp) as Hraise.
  destruct (detect_multiplier_bounds session_clock) as [Hm0 Hm1].
  set (m := SessionService.risk_multiplier (SessionService.detect session_clock)) in *.
  pose proof (capped_risk_nonneg settings r
                (MultiTimeframeRegimeService.final_volatility (multi_of per_tf)) Hr Hm) as Hc0.
  destruct (capped_risk_le settings r
              (MultiTimeframeRegimeService.final_volatility (multi_of per_tf)))
    as [Hcr Hcm].
  assert (Hrisk : RiskService.final_risk_pct (risk_of settings per_tf e r s) * m
                  = RiskService.capped_risk_pct settings r
                      (MultiTimeframeRegimeService.final_volatility (multi_of per_tf)) * m).
  { unfold risk_of. rewrite compute_final_risk_pct. reflexivity. }
  set (c := RiskService.capped_risk_pct settings r
              (MultiTimeframeRegimeService.final_volatility (multi_of per_tf))) in *.
  assert (Hb0 : 0 <= c * m) by (apply Qmult_le_0_compat; lra).
  assert (Hb1 : c * m <= c).
  { rewrite <- (Qmult_1_r c) at 2. rewrite !(Qmult_comm c).
    apply Qmult_le_compat_r; assumption. }
  destruct (BehaviorService.allowed (snd (BehaviorService.check settings db user now))) eqn:Hb.
  - rewrite check_trade_call_allowed with (per_tf := per_tf) by assumption.
    eexists. split; [reflexivity |]. rewrite allowed_call_risk_pct. fold m. rewrite Hrisk.
    split; [exact Hb0 |]. split; [lra |]. split; [lra | exact Hraise].
  - rewrite check_trade_call_blocked with (per_tf := per_tf) by assumption.
    eexists. split; [reflexivity |]. cbn [risk_pct]. fold m. rewrite Hrisk.
    split; [exact Hb0 |]. split; [lra |]. split; [lra | exact Hraise].
Qed.


End PipelineMore.

Lemma check_trade_always_raises_example :
  exists call msg,
    snd (DecisionService.check_trade_call Np.ln_approx Np.sqrt_approx example_settings
           Examples.capped_db Examples.candles_by_tf "u1" "BTCUSDT" "breakout"
           10000 2.0 1.0 "1m" SessionService._asia Examples.t1) = Some call /\
    snd (DecisionService.check_trade Np.ln_approx Np.sqrt_approx example_settings
           Examples.capped_db Examples.candles_by_tf "u1" "BTCUSDT" "breakout"
           10000 2.0 1.0 "1m" SessionService._asia Examples.t1)
    = inl (DecisionService.TypeError msg) /\
    (DecisionService.decision call = "ALLOW"%string \/
     DecisionService.decision call = "WARN"%string \/
     DecisionService.decision call = "BLOCK"%string) /\
    (DecisionService.volatility_state call = "high"%string \/
     DecisionService.volatility_state call = "low"%string) /\
    DecisionService.suggested_actions call <> [].
Proof.
  apply (check_trade_always_raises Np.ln_approx Np.sqrt_approx example_settings).
  exact example_percentile_ok.
Defined.

Lemma detected_session_example :
  exists call,
    snd (DecisionService.check_trade_call Np.ln_approx Np.sqrt_approx example_settings ∅
           Examples.candles_by_tf "u1" "BTCUSDT" "breakout" 10000 2.0 1.0 "1m"
           (SessionService.detect Examples.t1) Examples.t2) = Some call /\
    0 <= DecisionService.risk_pct call /\ DecisionService.risk_pct call <= 2.0 /\
    DecisionService.risk_pct call <= max_risk_per_trade_pct example_settings /\
    exists msg,
      snd (DecisionService.check_trade Np.ln_approx Np.sqrt_approx example_settings ∅
             Examples.candles_by_tf "u1" "BTCUSDT" "breakout" 10000 2.0 1.0 "1m"
             (SessionService.detect Examples.t1) Examples.t2)
      = inl (DecisionService.TypeError msg).
Proof.
  apply detected_session_never_raises_risk;
    [exact example_percentile_ok | discriminate | discriminate].
Defined.


(** ** The trade endpoints *)

Section Endpoints.
Import Main.
Variable settings : Settings.

Lemma close_trade_found st req user now now' tr :
  find_trade st (close_trade_id req) user = Some tr ->
  status tr = "OPEN"%string ->
  exists tr',
    close_trade settings st req user now now'
    = ({| trades_table := <[close_trade_id req := tr']> (trades_table st);
          daily_stats :=
            BehaviorService.update_on_trade_close settings (daily_stats st) user
              (close_pnl req) now' |}, inr tr') /\
    id tr' = id tr /\ user_id tr' = user_id tr /\ mode tr' = mode tr /\
    status tr' = "CLOSED"%string /\ closed_at tr' = Some now /\
    exit_price tr' = Some (close_exit_price req) /\ pnl tr' = Some (close_pnl req).
Proof.
  intros Hf Hs. unfold close_trade. rewrite Hf, Hs. simpl.
  eexists. split; [reflexivity |]. simpl. repeat split.
Qed.

Lemma find_trade_some st trade_id user tr :
  find_trade st trade_id user = Some tr
  <-> trades_table st !! trade_id = Some tr /\ user_id tr = user.
Proof.
  unfold find_trade. destruct (trades_table st !! trade_id) as [tr0 |].
  - destruct (String.eqb_spec (user_id tr0) user) as [E | E].
    + split; [intros [= <-]; auto | intros [[= <-] _]; reflexivity].
    + split; [discriminate | intros [[= <-] E']; congruence].
  - split; [discriminate | intros [H _]; discriminate H].
Qed.

(** A call that answers with an HTTP error leaves both tables as they were;
    opening fails exactly for a mode other than ["PAPER"]. *)
Theorem errors_leave_the_store :
  (forall st req user new_id now,
     (exists e, snd (open_trade st req user new_id now) = inl e)
     <-> open_mode req <> "PAPER"%string) /\
  (forall st req user new_id now e,
     snd (open_trade st req user new_id now) = inl e ->
     fst (open_trade st req user new_id now) = st) /\
  (forall st req user now now' e,
     snd (close_trade settings st req user now now') = inl e ->
     fst (close_trade settings st req user now now') = st).
Proof.
  split; [| split].
  - intros st req user new_id now. unfold open_trade.
    destruct (String.eqb_spec (open_mode req) "PAPER") as [E | E]; simpl.
    + split; [intros [e He]; discriminate He | congruence].
    + split; [intros _; exact E | intros _; eexists; reflexivity].
  - intros st req user new_id now e. unfold open_trade.
    destruct (negb _); simpl; [reflexivity | discriminate].
  - intros st req user now now' e. unfold close_trade.
    destruct (find_trade _ _ _) as [tr |]; [| reflexivity].
    destruct (negb _); simpl; [reflexivity | discriminate].
Qed.

(** Closing answers 404 exactly when no trade with the requested id belongs
    to the caller: another user's trade is reported as not found. *)
Theorem close_of_foreign_trade_is_not_found st req user now now' :
  snd (close_trade settings st req user now now') = inl (HTTPError 404 "Trade not found.")
  <-> (forall tr, trades_table st !! close_trade_id req = Some tr -> user_id tr <> user).
Proof.
  unfold close_trade.
  destruct (find_trade st (close_trade_id req) user) as [tr |] eqn:Hf.
  - apply find_trade_some in Hf as [Hl Hu].
    split.
    + destruct (negb _); simpl; discriminate.
    + intros H. exfalso. exact (H tr Hl Hu).
  - split; [| reflexivity]. intros _ tr Hl Hu.
    assert (Hs : find_trade st (close_trade_id req) user = Some tr)
      by (apply find_trade_some; auto).
    congruence.
Qed.

(** A paper trade that was opened can be closed by its owner: the answer is
    the trade, closed at the clock reading with the requested result, and
    the daily table is the one [update_on_trade_close] gives for that
    result. *)
Theorem opened_trade_can_be_closed st oreq creq user new_id t0 t t' :
  open_mode oreq = "PAPER"%string ->
  close_trade_id creq = new_id ->
  let st1 := fst (open_trade st oreq user new_id t0) in
  exists tr,
    snd (close_trade settings st1 creq user t t') = inr tr /\
    id tr = new_id /\ user_id tr = user /\ status tr = "CLOSED"%string /\
    opened_at tr = t0 /\ closed_at tr = Some t /\
    pnl tr = Some (close_pnl creq) /\
    trades_table (fst (close_trade settings st1 creq user t t')) !! new_id = Some tr /\
    daily_stats (fst (close_trade settings st1 creq user t t'))
    = BehaviorService.update_on_trade_close settings (daily_stats st) user
        (close_pnl creq) t'.
Proof.
  intros Hmode Hid st1. subst st1. unfold open_trade. rewrite Hmode. simpl.
  unfold close_trade, find_trade. cbn [trades_table]. rewrite Hid, lookup_insert_eq.
  cbn [user_id status]. rewrite String.eqb_refl. simpl.
  eexists. split; [reflexivity |]. simpl.
  repeat (split; [reflexivity |]). split; [apply lookup_insert_eq | reflexivity].
Qed.

(** After a successful close, every further close of the same trade by the
    same user answers 400 and changes nothing: the trade is counted once in
    the daily table. *)
Theorem closed_trade_is_not_closed_again st req user now now' st' tr :
  close_trade settings st req user now now' = (st', inr tr) ->
  forall req2 now2 now2',
    close_trade_id req2 = close_trade_id req ->
    close_trade settings st' req2 user now2 now2'
    = (st', inl (HTTPError 400 "Trade is not OPEN.")).
Proof.
  intros Hclose req2 now2 now2' Hid.
  unfold close_trade in Hclose.
  destruct (find_trade st (close_trade_id req) user) as [tr0 |] eqn:Hf;
    [| discriminate Hclose].
  destruct (negb (status tr0 =? "OPEN")%string); [discriminate Hclose |].
  injection Hclose as <- <-.
  apply find_trade_some in Hf as [_ Hu].
  unfold close_trade, find_trade. cbn [trades_table]. rewrite Hid, lookup_insert_eq.
  cbn [user_id status]. apply String.eqb_eq in Hu. rewrite Hu. reflexivity.
Qed.

Lemma open_keeps_trades_ok st req user new_id now :
  (forall key tr, trades_table st !! key = Some tr -> trade_ok key tr) ->
  forall key tr,
    trades_table (fst (open_trade st req user new_id now)) !! key = Some tr ->
    trade_ok key tr.
Proof.
  intros Hst key tr. unfold open_trade.
  destruct (String.eqb_spec (open_mode req) "PAPER") as [E | E]; simpl; [| apply Hst].
  rewrite lookup_insert. case_decide; [| apply Hst].
  intros [= <-]. subst key. unfold trade_ok. simpl.
  split; [reflexivity |]. split; [exact E |]. left. repeat split.
Qed.

Lemma close_keeps_trades_ok st req user now now' :
  (forall key tr, trades_table st !! key = Some tr -> trade_ok key tr) ->
  forall key tr,
    trades_table (fst (close_trade settings st req user now now')) !! key = Some tr ->
    trade_ok key tr.
Proof.
  intros Hst key tr. unfold close_trade.
  destruct (find_trade st (close_trade_id req) user) as [tr0 |] eqn:Hf; [| apply Hst].
  destruct (negb (status tr0 =? "OPEN")%string); simpl; [apply Hst |].
  apply find_trade_some in Hf as [Hl _]. destruct (Hst _ _ Hl) as (Hid & Hmode & _).
  rewrite lookup_insert. case_decide; [| apply Hst].
  intros [= <-]. subst key. unfold trade_ok. simpl.
  split; [exact Hid |]. split; [exact Hmode |]. right. repeat split; discriminate.
Qed.

(** In every store reached from the empty one through the endpoints, each
    trade is stored under its own id, is a paper trade, and is either open
    without closing time, exit price and result, or closed with all three. *)
Theorem reachable_trades_ok st :
  reachable settings st ->
  forall key tr, trades_table st !! key = Some tr -> trade_ok key tr.
Proof.
  induction 1 as [| st st' _ IH Hstep].
  - intros key tr. simpl. rewrite lookup_empty. discriminate.
  - destruct Hstep as [st req user new_id now _ | st req user now now'
                      | st user now | st user now].
    + apply open_keeps_trades_ok, IH.
    + apply close_keeps_trades_ok, IH.
    + exact IH.
    + unfold daily_report.
      destruct (BehaviorService.get_or_create_daily _ _ _). exact IH.
Qed.

End Endpoints.

Lemma close_of_foreign_trade_example :
  snd (Main.close_trade example_settings MoreExamples.open_store
         MoreExamples.close_request "u2" Examples.t2 Examples.t2)
  = inl (Main.HTTPError 404 "Trade not found.").
Proof.
  apply (close_of_foreign_trade_is_not_found example_settings MoreExamples.open_store
           MoreExamples.close_request "u2" Examples.t2 Examples.t2).
  intros tr Htr. vm_compute in Htr. injection Htr as <-. discriminate.
Defined.

Lemma opened_trade_can_be_closed_example :
  exists tr,
    snd (Main.close_trade example_settings MoreExamples.open_store
           MoreExamples.close_request "u1" Examples.t2 Examples.t2) = inr tr /\
    Main.status tr = "CLOSED"%string /\ Main.pnl tr = Some 12.5.
Proof.
  destruct (opened_trade_can_be_closed example_settings Main.empty_store
              MoreExamples.open_request MoreExamples.close_request "u1" "t1"
              Examples.t1 Examples.t2 Examples.t2 eq_refl eq_refl)
    as (tr & H & _ & _ & Hs & _ & _ & Hp & _).
  exists tr. split; [exact H |]. split; [exact Hs | exact Hp].
Defined.

Lemma closed_trade_is_not_closed_again_example :
  Main.close_trade example_settings
    (fst (Main.close_trade example_settings MoreExamples.open_store
            MoreExamples.close_request "u1" Examples.t2 Examples.t2))
    MoreExamples.close_request "u1" Examples.t2 Examples.t2
  = (fst (Main.close_trade example_settings MoreExamples.open_store
            MoreExamples.close_request "u1" Examples.t2 Examples.t2),
     inl (Main.HTTPError 400 "Trade is not OPEN.")).
Proof.
  destruct (Main.close_trade example_settings MoreExamples.open_store
              MoreExamples.close_request "u1" Examples.t2 Examples.t2)
    as [st' [e | tr]] eqn:E.
  - vm_compute in E. discriminate E.
  - exact (closed_trade_is_not_closed_again example_settings MoreExamples.open_store
             MoreExamples.close_request "u1" Examples.t2 Examples.t2 st' tr E
             MoreExamples.close_request Examples.t2 Examples.t2 eq_refl).
Defined.

Lemma reachable_trades_ok_example :
  trade_ok "t1"
    {| Main.id := "t1"; Main.user_id := "u1"; Main.symbol := "BTCUSDT";
       Main.strategy := "breakout"; Main.mode := "PAPER"; Main.status := "OPEN";
       Main.opened_at := Examples.t1; Main.closed_at := None;
       Main.entry_price := 100; Main.exit_price := None; Main.qty := 1;
       Main.risk_pct := 1; Main.stop_distance_pct := 1; Main.pnl := None;
       Main.rr := None; Main.rule_violation := false; Main.notes := None |}.
Proof.
  apply (reachable_trades_ok example_settings MoreExamples.open_store).
  - eapply Main.reachable_step; [apply Main.reachable_empty |].
    apply (Main.step_open example_settings Main.empty_store MoreExamples.open_request
             "u1" "t1" Examples.t1). reflexivity.
  - vm_compute. reflexivity.
Defined.

(** ** The weekly report *)

Section Reports.
Import Main.
Variable settings : Settings.

Lemma sum_int_from (f : Models.DailyStat -> Z) rows a :
  fold_left (fun acc r => (acc + f r)%Z) rows a = (a + sum_int f rows)%Z.
Proof.
  unfold sum_int. revert a. induction rows as [| r rows IH]; intros a; simpl; [lia |].
  rewrite (IH (a + f r)%Z), (IH (0 + f r)%Z). lia.
Qed.

Lemma sum_int_cons (f : Models.DailyStat -> Z) r rows : sum_int f (r :: rows) = (f r + sum_int f rows)%Z.
Proof. unfold sum_int at 1. simpl. rewrite sum_int_from. lia. Qed.

Lemma sum_int_snoc (f : Models.DailyStat -> Z) rows last :
  sum_int f (rows ++ last) = (sum_int f rows + sum_int f last)%Z.
Proof. unfold sum_int at 1. rewrite fold_left_app, sum_int_from. reflexivity. Qed.

Lemma sum_float_from (f : Models.DailyStat -> Q) rows a :
  fold_left (fun acc r => acc + f r) rows a == a + sum_float f rows.
Proof.
  unfold sum_float. revert a. induction rows as [| r rows IH]; intros a; simpl; [ring |].
  rewrite (IH (a + f r)), (IH (0 + f r)). ring.
Qed.

Lemma sum_float_snoc (f : Models.DailyStat -> Q) rows last :
  sum_float f (rows ++ last) == sum_float f rows + sum_float f last.
Proof. unfold sum_float at 1. rewrite fold_left_app, sum_float_from. reflexivity. Qed.

Lemma sum_int_counts rows :
  Forall History.counts_agree rows ->
  sum_int Models.trades_count rows
  = (sum_int Models.wins rows + sum_int Models.losses rows)%Z.
Proof.
  induction 1 as [| r rows Hr _ IH]; [reflexivity |].
  rewrite !sum_int_cons, IH. unfold History.counts_agree in Hr. lia.
Qed.

Lemma sum_int_nonneg (f : Models.DailyStat -> Z) rows :
  Forall (fun r => (0 <= f r)%Z) rows -> (0 <= sum_int f rows)%Z.
Proof.
  induction 1 as [| r rows Hr _ IH]; [unfold sum_int; simpl; lia |].
  rewrite sum_int_cons. lia.
Qed.

Lemma fold_max_ge (f : Models.DailyStat -> Z) (rows : list Models.DailyStat) a :
  (a <= fold_left (fun acc r => Z.max acc (f r)) rows a)%Z.
Proof.
  revert a. induction rows as [| r rows IH]; intros a; simpl; [lia |].
  specialize (IH (Z.max a (f r))). lia.
Qed.

Lemma max_default_0_nonneg (f : Models.DailyStat -> Z) rows :
  Forall (fun r => (0 <= f r)%Z) rows -> (0 <= max_default_0 f rows)%Z.
Proof.
  intros H. destruct H as [| r rows Hr _]; simpl; [lia |].
  pose proof (fold_max_ge f rows (f r)). lia.
Qed.

Lemma week_rows_Forall (P : Models.DailyStat -> Prop) db user end_day :
  (forall key ds, db !! key = Some ds -> P ds) ->
  Forall P (week_rows db user end_day).
Proof.
  intros H. apply Forall_forall. intros ds Hin.
  apply list_elem_of_omap in Hin as (i & _ & Hl). exact (H _ _ Hl).
Qed.

Lemma main_step_daily st st' :
  step settings st st' ->
  daily_stats st' = daily_stats st \/
  History.step settings (daily_stats st) (daily_stats st').
Proof.
  intros [st0 req user new_id now _ | st0 req user now now' | st0 user now | st0 user now].
  - left. unfold open_trade. destruct (negb _); reflexivity.
  - unfold close_trade. destruct (find_trade _ _ _); [| left; reflexivity].
    destruct (negb _); simpl; [left; reflexivity | right; apply History.step_close].
  - right. simpl. apply History.step_check.
  - right. unfold daily_report.
    pose proof (check_table settings (daily_stats st0) user now) as E.
    destruct (BehaviorService.get_or_create_daily (daily_stats st0) user (Py.date_of now))
      as [db ds]. simpl in *. rewrite <- E. apply History.step_check.
Qed.

Lemma reachable_daily_rows st :
  reachable settings st ->
  History.table_counts_agree (daily_stats st) /\
  (forall key ds, daily_stats st !! key = Some ds -> row_ok key ds).
Proof.
  induction 1 as [| st st' _ [IHc IHr] Hstep].
  - split; intros key ds; simpl; rewrite lookup_empty; discriminate.
  - destruct (main_step_daily st st' Hstep) as [-> | Hs]; [split; assumption |].
    split; [exact (step_preserves settings _ _ Hs IHc)
           | exact (step_rows_ok settings _ _ Hs IHr)].
Qed.

(** In every store reached through the endpoints, the weekly report of any
    user at any time has [trades = wins + losses], and its wins, losses and
    maximal losing streak are not negative. *)
Theorem weekly_report_is_consistent st user now :
  reachable settings st ->
  trades (weekly_report st user now)
  = (wins (weekly_report st user now) + losses (weekly_report st user now))%Z /\
  (0 <= wins (weekly_report st user now))%Z /\
  (0 <= losses (weekly_report st user now))%Z /\
  (0 <= max_consecutive_losses (weekly_report st user now))%Z.
Proof.
  intros Hreach. destruct (reachable_daily_rows st Hreach) as [Hc Hr].
  unfold weekly_report. cbn [trades wins losses max_consecutive_losses].
  split; [apply sum_int_counts, week_rows_Forall; exact Hc |].
  split; [| split].
  - apply sum_int_nonneg, week_rows_Forall.
    intros key ds Hl. destruct (Hr key ds Hl) as (_ & _ & Hw & _). exact Hw.
  - apply sum_int_nonneg, week_rows_Forall.
    intros key ds Hl. destruct (Hr key ds Hl) as (_ & _ & _ & Hl' & _). lia.
  - apply max_default_0_nonneg, week_rows_Forall.
    intros key ds Hl. destruct (Hr key ds Hl) as (_ & _ & _ & Hl' & _). lia.
Qed.

Lemma week_rows_split db user end_day :
  week_rows db user end_day
  = omap (fun i => db !! (user, (end_day - 6 + Z.of_nat i)%Z)) (seq 0 6)
    ++ match db !! (user, end_day) with Some r => [r] | None => [] end.
Proof.
  unfold week_rows. change (seq 0 7) with (seq 0 6 ++ [6%nat]). rewrite omap_app.
  f_equal. simpl.
  replace (end_day - 6 + Z.of_nat 6)%Z with end_day by lia.
  unfold Py.date in *.
  destruct (db !! (user, end_day)); reflexivity.
Qed.

Lemma update_lookup_other db user pnl now key :
  key <> (user, Py.date_of now) ->
  BehaviorService.update_on_trade_close settings db user pnl now !! key = db !! key.
Proof.
  intros Hne. unfold BehaviorService.update_on_trade_close,
    BehaviorService.get_or_create_daily.
  destruct (db !! (user, Py.date_of now)); simpl;
    rewrite !lookup_insert_ne by congruence; reflexivity.
Qed.

Lemma week_prefix_after_close db user pnl now :
  omap (fun i => BehaviorService.update_on_trade_close settings db user pnl now
                 !! (user, (Py.date_of now - 6 + Z.of_nat i)%Z)) (seq 0 6)
  = omap (fun i => db !! (user, (Py.date_of now - 6 + Z.of_nat i)%Z)) (seq 0 6).
Proof.
  apply list_omap_ext. simpl.
  repeat (constructor; [apply update_lookup_other; intros [= H]; lia |]).
  constructor.
Qed.

(** A close shows in the weekly report of its day: one trade more, and one
    win more for a positive result, one loss more otherwise. *)
Theorem close_shows_in_weekly_report st req user now now' st' tr :
  close_trade settings st req user now now' = (st', inr tr) ->
  trades (weekly_report st' user now') = (trades (weekly_report st user now') + 1)%Z /\
  wins (weekly_report st' user now')
  = (wins (weekly_report st user now') + if Py.gtb (close_pnl req) 0 then 1 else 0)%Z /\
  losses (weekly_report st' user now')
  = (losses (weekly_report st user now') + if Py.gtb (close_pnl req) 0 then 0 else 1)%Z.
Proof.
  intros Hclose. unfold close_trade in Hclose.
  destruct (find_trade st (close_trade_id req) user) as [tr0 |]; [| discriminate Hclose].
  destruct (negb (status tr0 =? "OPEN")%string); [discriminate Hclose |].
  injection Hclose as <- _.
  unfold weekly_report. cbn [trades wins losses daily_stats].
  rewrite !week_rows_split, week_prefix_after_close.
  rewrite (update_lookup settings (daily_stats st) user (close_pnl req) now').
  rewrite !sum_int_snoc.
  set (prefix := omap (fun i => daily_stats st
                                !! (user, (Py.date_of now' - 6 + Z.of_nat i)%Z)) (seq 0 6)).
  generalize (sum_int Models.trades_count prefix), (sum_int Models.wins prefix),
    (sum_int Models.losses prefix).
  intros a b c. clear prefix.
  unfold BehaviorService.get_or_create_daily.
  destruct (daily_stats st !! (user, Py.date_of now')) as [ds |];
    unfold sum_int; cbn [fold_left snd]; unfold BehaviorService.closed_row;
    destruct (Py.gtb (close_pnl req) 0);
    cbn [Models.trades_count Models.wins Models.losses Models.new_daily];
    (split; [lia | split; lia]).
Qed.

End Reports.

Lemma week_store_reachable : Main.reachable example_settings MoreExamples.week_store.
Proof.
  apply (Main.reachable_step example_settings MoreExamples.won_store);
    [| apply Main.step_close].
  apply (Main.reachable_step example_settings MoreExamples.two_open_store);
    [| apply Main.step_close].
  apply (Main.reachable_step example_settings MoreExamples.open_store);
    [| apply (Main.step_open example_settings MoreExamples.open_store
                MoreExamples.open_request "u1" "t2" Examples.t1); reflexivity].
  apply (Main.reachable_step example_settings Main.empty_store);
    [apply Main.reachable_empty |].
  apply (Main.step_open example_settings Main.empty_store MoreExamples.open_request
           "u1" "t1" Examples.t1). reflexivity.
Qed.

Lemma weekly_report_consistent_example :
  (Main.trades (Main.weekly_report MoreExamples.week_store "u1" Examples.t2) = 2%Z /\
   Main.wins (Main.weekly_report MoreExamples.week_store "u1" Examples.t2) = 1%Z /\
   Main.losses (Main.weekly_report MoreExamples.week_store "u1" Examples.t2) = 1%Z /\
   Main.max_consecutive_losses
     (Main.weekly_report MoreExamples.week_store "u1" Examples.t2) = 1%Z) /\
  Main.trades (Main.weekly_report MoreExamples.week_store "u1" Examples.t2)
  = (Main.wins (Main.weekly_report MoreExamples.week_store "u1" Examples.t2)
     + Main.losses (Main.weekly_report MoreExamples.week_store "u1" Examples.t2))%Z /\
  (0 <= Main.wins (Main.weekly_report MoreExamples.week_store "u1" Examples.t2))%Z /\
  (0 <= Main.losses (Main.weekly_report MoreExamples.week_store "u1" Examples.t2))%Z /\
  (0 <= Main.max_consecutive_losses
          (Main.weekly_report MoreExamples.week_store "u1" Examples.t2))%Z.
Proof.
  split; [vm_compute; repeat split |].
  exact (weekly_report_is_consistent example_settings MoreExamples.week_store "u1"
           Examples.t2 week_store_reachable).
Defined.

Lemma close_shows_in_weekly_report_example :
  Main.trades (Main.weekly_report MoreExamples.week_store "u1" Examples.t2)
  = (Main.trades (Main.weekly_report MoreExamples.won_store "u1" Examples.t2) + 1)%Z /\
  Main.wins (Main.weekly_report MoreExamples.week_store "u1" Examples.t2)
  = (Main.wins (Main.weekly_report MoreExamples.won_store "u1" Examples.t2)
     + if Py.gtb (Main.close_pnl MoreExamples.loss_request) 0 then 1 else 0)%Z /\
  Main.losses (Main.weekly_report MoreExamples.week_store "u1" Examples.t2)
  = (Main.losses (Main.weekly_report MoreExamples.won_store "u1" Examples.t2)
     + if Py.gtb (Main.close_pnl MoreExamples.loss_request) 0 then 0 else 1)%Z.
Proof.
  unfold MoreExamples.week_store.
  destruct (Main.close_trade example_settings MoreExamples.won_store
              MoreExamples.loss_request "u1" Examples.t2 Examples.t2)
    as [st' [e | tr]] eqn:E.
  - vm_compute in E. discriminate E.
  - exact (close_shows_in_weekly_report example_settings MoreExamples.won_store
             MoreExamples.loss_request "u1" Examples.t2 Examples.t2 st' tr E).
Defined.

